(** * xCDN document model (xcdn/ast.py): a shallow embedding

    The classes of [xcdn/ast.py] as inductive types, their methods as
    functions.  A method that mutates [self] returns the new state of
    [self]; a method that can raise returns a [result].  Python's [list] is
    a [list] addressed through [list_getitem]/[list_setitem] (negative
    indices count from the end, anything else out of range raises
    [IndexError]); Python's insertion-ordered [dict] with [str] keys is an
    association list addressed through [dict_get]/[dict_set]. *)

From Stdlib Require Import ZArith Lia.
From Stdlib Require Import Floats.PrimFloat.
From Stdlib Require Import Strings.Byte.
From stdpp Require Import base numbers strings pretty option list.

Local Open Scope string_scope.
Local Open Scope Z_scope.
Local Open Scope list_scope.

(** ** Exceptions and results *)

(** The built-in exceptions the module raises, each with its message. *)
Inductive exn : Type :=
| KeyError (msg : string)
| IndexError (msg : string)
| TypeError (msg : string)
| AttributeError (msg : string).

Inductive result (A : Type) : Type :=
| Ok (a : A)
| Raise (e : exn).
Arguments Ok {A} a.
Arguments Raise {A} e.

Definition is_ok {A} (r : result A) : bool :=
  match r with Ok _ => true | Raise _ => false end.

Definition is_KeyError {A} (r : result A) : bool :=
  match r with Raise (KeyError _) => true | _ => false end.
Definition is_IndexError {A} (r : result A) : bool :=
  match r with Raise (IndexError _) => true | _ => false end.

(** ** Python lists *)

(** The slot an integer index addresses in a list of [len] elements:
    [i] itself when [0 <= i < len], [len + i] when [-len <= i < 0]. *)
Definition list_index (len : nat) (i : Z) : option nat :=
  let j := if i <? 0 then i + Z.of_nat len else i in
  if (0 <=? j) && (j <? Z.of_nat len) then Some (Z.to_nat j) else None.

(** [l[i]] *)
Definition list_getitem {A} (l : list A) (i : Z) : result A :=
  match list_index (length l) i with
  | Some p =>
      match l !! p with
      | Some x => Ok x
      | None => Raise (IndexError "list index out of range")
      end
  | None => Raise (IndexError "list index out of range")
  end.

(** [l[i] = x] *)
Definition list_setitem {A} (l : list A) (i : Z) (x : A) : result (list A) :=
  match list_index (length l) i with
  | Some p => Ok (<[p := x]> l)
  | None => Raise (IndexError "list assignment index out of range")
  end.

(** [l.append(x)] *)
Definition list_append {A} (l : list A) (x : A) : list A := l ++ [x].

(** ** Python dicts with [str] keys, in insertion order *)

(** [d[k]], [None] standing for the [KeyError]. *)
Fixpoint dict_get {A} (d : list (string * A)) (k : string) : option A :=
  match d with
  | [] => None
  | (k', x) :: d' => if decide (k' = k) then Some x else dict_get d' k
  end.

(** [d[k] = x]: a present key keeps its place and takes the new value, a
    new key goes to the end. *)
Fixpoint dict_set {A} (d : list (string * A)) (k : string) (x : A)
  : list (string * A) :=
  match d with
  | [] => [(k, x)]
  | (k', y) :: d' =>
      if decide (k' = k) then (k', x) :: d' else (k', y) :: dict_set d' k x
  end.

(** [k in d] *)
Definition dict_contains {A} (d : list (string * A)) (k : string) : bool :=
  match dict_get d k with Some _ => true | None => false end.

(** A dict holds each key once. *)
Definition dict_wf {A} (d : list (string * A)) : Prop := NoDup d.*1.

(** ** The AST classes *)

(** [decimal.Decimal], finite, as [as_tuple()] gives it. *)
Record Decimal : Type := mkDecimal {
  dec_sign : bool;
  dec_digits : list N;
  dec_exponent : Z
}.

(** [datetime.datetime] as microseconds since the epoch and the offset of
    its time zone in seconds, if it has one. *)
Record datetime : Type := mkDatetime {
  dt_micros : Z;
  dt_utcoffset : option Z
}.

(** [uuid.UUID] as its 128-bit integer. *)
Definition UUID : Type := N.

(** [class Tag] *)
Record Tag : Type := mkTag { Tag_name : string }.

(** The twelve [ValueType] classes ([Value]), [Node], [Annotation], and what
    the untyped [value] field of a [Node] can hold: [None] (the dataclass
    default), an instance of a [Value] class, or a bare Python value, which
    a write through indexing stores as it is given: a scalar, a [list], or
    a [dict] with [str] keys.  What a bare [list] or [dict] holds, and what
    a write is given, is a [pyobj]: a [Node] ([isinstance(value, Node)]) or
    anything else. *)
Inductive Value : Type :=
| Null
| Bool (value : bool)
| Int (value : Z)
| Float (value : float)
| DecimalValue (value : Decimal)
| String (value : string)
| Bytes (value : list byte)
| DateTime (value : datetime)
| Duration (value : string)
| Uuid (value : UUID)
| Array (value : list Node)
| Object (value : list (string * Node))
with Node : Type :=
| mkNode (tags : list Tag) (annotations : list Annotation) (value : payload)
with Annotation : Type :=
| mkAnnotation (name : string) (args : list Value)
with payload : Type :=
| PyNone
| PyBool (b : bool)
| PyInt (z : Z)
| PyFloat (f : float)
| PyStr (s : string)
| PyValue (v : Value)
| PyList (items : list pyobj)
| PyDict (items : list (string * pyobj))
with pyobj : Type :=
| IsNode (n : Node)
| NotNode (p : payload).

Definition Node_tags (n : Node) : list Tag :=
  match n with mkNode t _ _ => t end.
Definition Node_annotations (n : Node) : list Annotation :=
  match n with mkNode _ a _ => a end.
Definition Node_value (n : Node) : payload :=
  match n with mkNode _ _ v => v end.

(** [class Directive] *)
Record Directive : Type := mkDirective {
  Directive_name : string;
  Directive_value : Value
}.

(** [class Document] *)
Record Document : Type := mkDocument {
  prolog : list Directive;
  values : list Node
}.

(** A key given to [Document.__getitem__]/[__setitem__]: an [int], a [str],
    or a value of another type, of which only the type's name matters. *)
Inductive pykey : Type :=
| KeyInt (i : Z)
| KeyStr (s : string)
| KeyOther (type_name : string).

(** [type(p).__name__] *)
Definition type_name (p : payload) : string :=
  match p with
  | PyNone => "NoneType"
  | PyBool _ => "bool"
  | PyInt _ => "int"
  | PyFloat _ => "float"
  | PyStr _ => "str"
  | PyValue Null => "Null"
  | PyValue (Bool _) => "Bool"
  | PyValue (Int _) => "Int"
  | PyValue (Float _) => "Float"
  | PyValue (DecimalValue _) => "DecimalValue"
  | PyValue (String _) => "String"
  | PyValue (Bytes _) => "Bytes"
  | PyValue (DateTime _) => "DateTime"
  | PyValue (Duration _) => "Duration"
  | PyValue (Uuid _) => "Uuid"
  | PyValue (Array _) => "Array"
  | PyValue (Object _) => "Object"
  | PyList _ => "list"
  | PyDict _ => "dict"
  end.

(** [isinstance(p, Object)], [isinstance(p, Array)], [isinstance(p, Null)] *)
Definition is_Object (p : payload) : bool :=
  match p with PyValue (Object _) => true | _ => false end.
Definition is_Array (p : payload) : bool :=
  match p with PyValue (Array _) => true | _ => false end.
Definition is_Null (p : payload) : bool :=
  match p with PyValue Null => true | _ => false end.

(** ** Node *)

(** The dataclass constructor [Node(tags=..., annotations=..., value=...)]:
    an omitted argument takes the field's default, [list()] for the two
    lists and [None] for [value]. *)
Definition Node_init (tags : option (list Tag))
    (annotations : option (list Annotation)) (value : option payload) : Node :=
  mkNode (default [] tags) (default [] annotations) (default PyNone value).

(** [Node.new(value)] is [Node(value=value)]. *)
Definition Node_new (value : payload) : Node :=
  Node_init None None (Some value).

(** The expression [value if isinstance(value, Node) else Node.new(value)]
    of the four writes below. *)
Definition node_of (value : pyobj) : Node :=
  match value with
  | IsNode n => n
  | NotNode p => Node_new p
  end.

(** ** Array *)

(** [Array.__getitem__] *)
Definition Array_getitem (self : list Node) (index : Z) : result Node :=
  list_getitem self index.

(** [Array.__setitem__] *)
Definition Array_setitem (self : list Node) (index : Z) (value : pyobj)
  : result (list Node) :=
  list_setitem self index (node_of value).

(** [Array.__len__] *)
Definition Array_len (self : list Node) : Z := Z.of_nat (length self).

(** [Array.append] *)
Definition Array_append (self : list Node) (value : pyobj) : list Node :=
  list_append self (node_of value).

(** ** Object *)

(** [Object.__getitem__] *)
Definition Object_getitem (self : list (string * Node)) (key : string)
  : result Node :=
  match dict_get self key with
  | Some n => Ok n
  | None => Raise (KeyError key)
  end.

(** [Object.__setitem__] *)
Definition Object_setitem (self : list (string * Node)) (key : string)
    (value : pyobj) : list (string * Node) :=
  dict_set self key (node_of value).

(** [Object.__contains__] *)
Definition Object_contains (self : list (string * Node)) (key : string) : bool :=
  dict_contains self key.

(** [Object.__len__] *)
Definition Object_len (self : list (string * Node)) : Z :=
  Z.of_nat (length self).

(** [Object.get] *)
Definition Object_get (self : list (string * Node)) (key : string)
    (default : pyobj) : pyobj :=
  match dict_get self key with
  | Some n => IsNode n
  | None => default
  end.

(** [Object.keys], [Object.values_iter], [Object.items], each as the list of
    what the view yields. *)
Definition Object_keys (self : list (string * Node)) : list string := self.*1.
Definition Object_values_iter (self : list (string * Node)) : list Node := self.*2.
Definition Object_items (self : list (string * Node)) : list (string * Node) := self.

(** ** Node: delegation to the underlying value *)

(** [hasattr(p, name)] for the five names the delegation methods of [Node]
    probe.  [Object] defines [get], [keys], [values_iter] and [items],
    [Array] defines [append]; of the bare values a [dict] has [get], [keys]
    and [items], a [list] has [append]; no other [Value] class, no bare
    scalar and not [None] has an attribute of one of these names. *)
Definition hasattr (p : payload) (name : string) : bool :=
  match p with
  | PyValue (Object _) =>
      bool_decide (name ∈ ["get"; "keys"; "values_iter"; "items"])
  | PyValue (Array _) => bool_decide (name ∈ ["append"])
  | PyDict _ => bool_decide (name ∈ ["get"; "keys"; "items"])
  | PyList _ => bool_decide (name ∈ ["append"])
  | _ => false
  end.

(** The message of the [AttributeError] the delegation methods raise. *)
Definition no_attribute (p : payload) (name : string) : string :=
  "'" +:+ type_name p +:+ "' object has no attribute '" +:+ name +:+ "'".

(** [d.get(key, default)], [d.keys()] and [d.items()] of a bare [dict]. *)
Definition bare_dict_get (d : list (string * pyobj)) (key : string)
    (default : pyobj) : pyobj :=
  match dict_get d key with
  | Some x => x
  | None => default
  end.

(** [Node.get] *)
Definition Node_get (self : Node) (key : string) (default : pyobj)
  : result pyobj :=
  if hasattr (Node_value self) "get" then
    match Node_value self with
    | PyValue (Object d) => Ok (Object_get d key default)
    | PyDict d => Ok (bare_dict_get d key default)
    | p => Raise (AttributeError (no_attribute p "get"))
    end
  else Raise (AttributeError (no_attribute (Node_value self) "get")).

(** [Node.keys] *)
Definition Node_keys (self : Node) : result (list string) :=
  if hasattr (Node_value self) "keys" then
    match Node_value self with
    | PyValue (Object d) => Ok (Object_keys d)
    | PyDict d => Ok d.*1
    | p => Raise (AttributeError (no_attribute p "keys"))
    end
  else Raise (AttributeError (no_attribute (Node_value self) "keys")).

(** [Node.values_iter] *)
Definition Node_values_iter (self : Node) : result (list Node) :=
  if hasattr (Node_value self) "values_iter" then
    match Node_value self with
    | PyValue (Object d) => Ok (Object_values_iter d)
    | p => Raise (AttributeError (no_attribute p "values_iter"))
    end
  else Raise (AttributeError (no_attribute (Node_value self) "values_iter")).

(** [Node.items]: the pairs of an [Object] hold nodes, those of a bare
    [dict] hold what was put there. *)
Definition Node_items (self : Node) : result (list (string * pyobj)) :=
  if hasattr (Node_value self) "items" then
    match Node_value self with
    | PyValue (Object d) => Ok (prod_map id IsNode <$> Object_items d)
    | PyDict d => Ok d
    | p => Raise (AttributeError (no_attribute p "items"))
    end
  else Raise (AttributeError (no_attribute (Node_value self) "items")).

(** [Node.append]: the node after the call (the call itself returns
    [None]).  [Array.append] stores a node; the [append] of a bare [list]
    stores the value as it is given. *)
Definition Node_append (self : Node) (value : pyobj) : result Node :=
  if hasattr (Node_value self) "append" then
    match Node_value self with
    | PyValue (Array l) =>
        Ok (mkNode (Node_tags self) (Node_annotations self)
              (PyValue (Array (Array_append l value))))
    | PyList l =>
        Ok (mkNode (Node_tags self) (Node_annotations self)
              (PyList (list_append l value)))
    | p => Raise (AttributeError (no_attribute p "append"))
    end
  else Raise (AttributeError (no_attribute (Node_value self) "append")).

(** ** Document *)

(** [Document.new()] *)
Definition Document_new : Document := mkDocument [] [].

(** The message of the [TypeError] for a key that is neither [int] nor
    [str]. *)
Definition bad_index (type_name : string) : string :=
  "Document indices must be integers or strings, not " +:+ type_name.

(** [Document.__getitem__] *)
Definition Document_getitem (self : Document) (key : pykey) : result Node :=
  match key with
  | KeyInt i => list_getitem (values self) i
  | KeyStr k =>
      match values self with
      | mkNode _ _ (PyValue (Object d)) :: _ => Object_getitem d k
      | _ => Raise (KeyError ("Cannot access key '" +:+ k +:+ "' on document"))
      end
  | KeyOther ty => Raise (TypeError (bad_index ty))
  end.

(** [Document.__setitem__]: the document after the write. *)
Definition Document_setitem (self : Document) (key : pykey) (value : pyobj)
  : result Document :=
  match key with
  | KeyInt i =>
      match list_setitem (values self) i (node_of value) with
      | Ok vs => Ok (mkDocument (prolog self) vs)
      | Raise e => Raise e
      end
  | KeyStr k =>
      let vs :=
        match values self with
        | [] => list_append (values self) (Node_new (PyValue (Object [])))
        | _ :: _ => values self
        end in
      match vs with
      | [] => Raise (IndexError "list index out of range")
      | mkNode t a (PyValue (Object d)) :: rest =>
          Ok (mkDocument (prolog self)
                (mkNode t a (PyValue (Object (Object_setitem d k value))) :: rest))
      | _ :: _ => Raise (TypeError "First document value is not an Object")
      end
  | KeyOther ty => Raise (TypeError (bad_index ty))
  end.

(** [Document.__contains__] *)
Definition Document_contains (self : Document) (key : string) : bool :=
  match values self with
  | mkNode _ _ (PyValue (Object d)) :: _ => Object_contains d key
  | _ => false
  end.

(** The [Object] a string key of a document addresses: the value of the
    first top-level node, when there is one and it is an [Object]. *)
Definition first_object (self : Document) : option (list (string * Node)) :=
  match values self with
  | n :: _ =>
      match Node_value n with
      | PyValue (Object d) => Some d
      | _ => None
      end
  | [] => None
  end.

(** [n] successive writes [o[k] = v] on an object, in the order of the
    list. *)
Definition set_calls (o : list (string * Node)) (calls : list (string * pyobj))
  : list (string * Node) :=
  foldl (fun o kv => Object_setitem o kv.1 kv.2) o calls.

(** ** More of the module: renderings, iteration, delegation *)

Definition is_TypeError {A} (r : result A) : bool :=
  match r with Raise (TypeError _) => true | _ => false end.

(** [s.lower()] on ASCII letters. *)
Definition ascii_lower (c : Ascii.ascii) : Ascii.ascii :=
  let n := Ascii.nat_of_ascii c in
  if ((65 <=? n) && (n <=? 90))%nat then Ascii.ascii_of_nat (n + 32) else c.

Fixpoint str_lower (s : string) : string :=
  match s with
  | EmptyString => EmptyString
  | String.String c s' => String.String (ascii_lower c) (str_lower s')
  end.

(** [str(b)] for a [bool], [str(n)] for a length. *)
Definition str_of_bool (b : bool) : string := if b then "True" else "False".
Definition str_of_len (n : nat) : string := pretty n.

(** [Null.__str__], [Bool.__str__], [String.__str__], [Bytes.__str__],
    [Duration.__str__], [Array.__str__] and [Object.__str__], each on the
    [value] field of its class. *)
Definition Null_str : string := "null".
Definition Bool_str (value : bool) : string := str_lower (str_of_bool value).
Definition String_str (value : string) : string := value.
Definition Bytes_str (value : list byte) : string :=
  "<" +:+ str_of_len (length value) +:+ " bytes>".
Definition Duration_str (value : string) : string := "<duration>".
Definition Array_str (value : list Node) : string :=
  "[" +:+ str_of_len (length value) +:+ " items]".
Definition Object_str (value : list (string * Node)) : string :=
  "{" +:+ str_of_len (length value) +:+ " entries}".

(** [Array.__iter__] and [Object.__iter__], each as the list of what the
    iterator yields: the nodes in order, the keys in order. *)
Definition Array_iter (self : list Node) : list Node := self.
Definition Object_iter (self : list (string * Node)) : list string := self.*1.

(** [key == n] for a key that is a [str] or an [int] and a node [n]: the
    dataclass [__eq__] of [Node] answers only to another [Node], and
    neither [str] nor [int] equals an object of another class. *)
Definition key_eq_Node (key : string + Z) (n : Node) : bool := false.

(** The messages of the interpreter's [TypeError]s for a value that does
    not support an operation (wording of CPython 3.11 to 3.13). *)
Definition not_subscriptable (p : payload) : string :=
  "'" +:+ type_name p +:+ "' object is not subscriptable".
Definition no_item_assignment (p : payload) : string :=
  "'" +:+ type_name p +:+ "' object does not support item assignment".
Definition not_iterable_arg (p : payload) : string :=
  "argument of type '" +:+ type_name p +:+ "' is not iterable".
Definition not_iterable (p : payload) : string :=
  "'" +:+ type_name p +:+ "' object is not iterable".
Definition no_len (p : payload) : string :=
  "object of type '" +:+ type_name p +:+ "' has no len()".

(** The values that are no container and no text: [None], a bare [bool],
    [int] or [float], and the instances of the ten [Value] classes other
    than [Array] and [Object]. *)
Definition is_scalar (p : payload) : bool :=
  match p with
  | PyNone | PyBool _ | PyInt _ | PyFloat _ => true
  | PyValue (Array _) | PyValue (Object _) => false
  | PyValue _ => true
  | PyStr _ | PyList _ | PyDict _ => false
  end.

(** [None], a bare [bool], [int], [float] or [str], and the instances of
    the twelve [Value] classes. *)
Definition is_value_or_scalar (p : payload) : bool :=
  match p with
  | PyNone | PyBool _ | PyInt _ | PyFloat _ | PyStr _ | PyValue _ => true
  | PyList _ | PyDict _ => false
  end.

(** What a container holding [p] stores when it is given [v]: [Object]
    and [Array] store a node, a bare [list] or [dict] stores [v] itself. *)
Definition stored_as (p : payload) (v : pyobj) : pyobj :=
  if is_Object p || is_Array p then IsNode (node_of v) else v.

(** The delegations below go through [self.value[key]], [key in
    self.value], [iter(self.value)] and [len(self.value)], for a key that
    is a [str] ([inl]) or an [int] ([inr]).  [None] stands for what the
    model has no place for: an [int] key in a dict, whose keys are [str]
    here; a bare [str], which Python takes as a sequence of code points;
    the comparison of a key with the elements of a bare [list]. *)

(** [Node.__getitem__]: an [Object] or a bare [dict] looks the key up, an
    [Array] or a bare [list] indexes its list (which refuses a [str]), a
    scalar is not subscriptable. *)
Definition Node_getitem (self : Node) (key : string + Z)
  : option (result pyobj) :=
  match Node_value self, key with
  | PyValue (Object d), inl k =>
      match Object_getitem d k with
      | Ok n => Some (Ok (IsNode n))
      | Raise e => Some (Raise e)
      end
  | PyValue (Object d), inr i => None
  | PyValue (Array l), inr i =>
      match Array_getitem l i with
      | Ok n => Some (Ok (IsNode n))
      | Raise e => Some (Raise e)
      end
  | PyValue (Array l), inl k =>
      Some (Raise (TypeError "list indices must be integers or slices, not str"))
  | PyList l, inr i => Some (list_getitem l i)
  | PyList l, inl k =>
      Some (Raise (TypeError "list indices must be integers or slices, not str"))
  | PyDict d, inl k =>
      match dict_get d k with
      | Some x => Some (Ok x)
      | None => Some (Raise (KeyError k))
      end
  | PyDict d, inr i => None
  | PyStr s, _ => None
  | p, _ => Some (Raise (TypeError (not_subscriptable p)))
  end.

(** [Node.__setitem__]: the node after [self.value[key] = value], its tags
    and annotations untouched. *)
Definition Node_setitem (self : Node) (key : string + Z) (value : pyobj)
  : option (result Node) :=
  match Node_value self, key with
  | PyValue (Object d), inl k =>
      Some (Ok (mkNode (Node_tags self) (Node_annotations self)
                  (PyValue (Object (Object_setitem d k value)))))
  | PyValue (Object d), inr i => None
  | PyValue (Array l), inr i =>
      match Array_setitem l i value with
      | Ok l' =>
          Some (Ok (mkNode (Node_tags self) (Node_annotations self)
                      (PyValue (Array l'))))
      | Raise e => Some (Raise e)
      end
  | PyValue (Array l), inl k =>
      Some (Raise (TypeError "list indices must be integers or slices, not str"))
  | PyList l, inr i =>
      match list_setitem l i value with
      | Ok l' =>
          Some (Ok (mkNode (Node_tags self) (Node_annotations self) (PyList l')))
      | Raise e => Some (Raise e)
      end
  | PyList l, inl k =>
      Some (Raise (TypeError "list indices must be integers or slices, not str"))
  | PyDict d, inl k =>
      Some (Ok (mkNode (Node_tags self) (Node_annotations self)
                  (PyDict (dict_set d k value))))
  | PyDict d, inr i => None
  | p, _ => Some (Raise (TypeError (no_item_assignment p)))
  end.

(** [Node.__contains__]: [Object] has [__contains__]; [Array] has none, so
    the test walks [Array.__iter__] and compares the key with each node; a
    bare [dict] looks the key up; a scalar is no container. *)
Definition Node_contains (self : Node) (key : string + Z)
  : option (result bool) :=
  match Node_value self, key with
  | PyValue (Object d), inl k => Some (Ok (Object_contains d k))
  | PyValue (Object d), inr i => None
  | PyValue (Array l), _ => Some (Ok (existsb (key_eq_Node key) (Array_iter l)))
  | PyDict d, inl k => Some (Ok (dict_contains d k))
  | PyDict d, inr i => None
  | PyList l, _ => None
  | PyStr s, _ => None
  | p, _ => Some (Raise (TypeError (not_iterable_arg p)))
  end.

(** [Node.__iter__]: what [iter(self.value)] yields. *)
Definition Node_iter (self : Node) : option (result (list pyobj)) :=
  match Node_value self with
  | PyValue (Object d) => Some (Ok ((λ k, NotNode (PyStr k)) <$> Object_iter d))
  | PyValue (Array l) => Some (Ok (IsNode <$> Array_iter l))
  | PyList l => Some (Ok l)
  | PyDict d => Some (Ok ((λ k, NotNode (PyStr k)) <$> d.*1))
  | PyStr s => None
  | p => Some (Raise (TypeError (not_iterable p)))
  end.

(** [Node.__len__]: [len(self.value)]. *)
Definition Node_len (self : Node) : option (result Z) :=
  match Node_value self with
  | PyValue (Object d) => Some (Ok (Object_len d))
  | PyValue (Array l) => Some (Ok (Array_len l))
  | PyList l => Some (Ok (Z.of_nat (length l)))
  | PyDict d => Some (Ok (Z.of_nat (length d)))
  | PyStr s => None
  | p => Some (Raise (TypeError (no_len p)))
  end.

(** Successive writes [a.append(v)], and successive writes
    [document[k] = v] under string keys, stopped by the first that
    raises. *)
Definition append_calls (a : list Node) (vs : list pyobj) : list Node :=
  foldl Array_append a vs.

Fixpoint Document_set_calls (d : Document) (calls : list (string * pyobj))
  : result Document :=
  match calls with
  | [] => Ok d
  | (k, v) :: calls' =>
      match Document_setitem d (KeyStr k) v with
      | Ok d' => Document_set_calls d' calls'
      | Raise e => Raise e
      end
  end.

(** The last value written under [k] in a list of writes. *)
Definition last_write (calls : list (string * pyobj)) (k : string)
  : option pyobj :=
  dict_get (reverse calls) k.

(** * Properties *)

(** ** Indices of Python lists *)

Section ListIndex.
Context {A : Type}.
Implicit Types (l : list A) (i j : Z) (p : nat) (x : A).

Lemma list_index_nonneg len i :
  0 <= i < Z.of_nat len -> list_index len i = Some (Z.to_nat i).
Proof.
  intros H. unfold list_index.
  destruct (Z.ltb_spec i 0); [lia|].
  destruct (Z.leb_spec 0 i), (Z.ltb_spec i (Z.of_nat len)); simpl; (reflexivity || lia).
Qed.

Lemma list_index_neg len i :
  - Z.of_nat len <= i < 0 ->
  list_index len i = Some (Z.to_nat (i + Z.of_nat len)).
Proof.
  intros H. unfold list_index.
  destruct (Z.ltb_spec i 0); [|lia].
  destruct (Z.leb_spec 0 (i + Z.of_nat len)),
    (Z.ltb_spec (i + Z.of_nat len) (Z.of_nat len)); simpl; (reflexivity || lia).
Qed.

Lemma list_index_out len i :
  i < - Z.of_nat len \/ Z.of_nat len <= i -> list_index len i = None.
Proof.
  intros H. unfold list_index.
  destruct (Z.ltb_spec i 0).
  - destruct (Z.leb_spec 0 (i + Z.of_nat len)),
      (Z.ltb_spec (i + Z.of_nat len) (Z.of_nat len)); simpl; (reflexivity || lia).
  - destruct (Z.leb_spec 0 i), (Z.ltb_spec i (Z.of_nat len)); simpl; (reflexivity || lia).
Qed.

Lemma list_index_lt len i p : list_index len i = Some p -> (p < len)%nat.
Proof.
  unfold list_index. intros H.
  destruct (Z.ltb_spec i 0);
    match type of H with
    | (if Z.leb 0 ?a && Z.ltb ?a ?b then _ else _) = _ =>
        destruct (Z.leb_spec 0 a), (Z.ltb_spec a b); simpl in H
    end; inversion H; lia.
Qed.

Lemma list_getitem_slot l i p :
  list_index (length l) i = Some p ->
  exists x, l !! p = Some x /\ list_getitem l i = Ok x.
Proof.
  intros H. pose proof (list_index_lt _ _ _ H) as Hlt.
  destruct (lookup_lt_is_Some_2 l p Hlt) as [x Hx].
  exists x. split; [exact Hx|].
  unfold list_getitem. rewrite H, Hx. reflexivity.
Qed.

Lemma list_getitem_out l i :
  list_index (length l) i = None ->
  list_getitem l i = Raise (IndexError "list index out of range").
Proof. intros H. unfold list_getitem. rewrite H. reflexivity. Qed.

Lemma list_get_set_same l i x l' :
  list_setitem l i x = Ok l' -> list_getitem l' i = Ok x.
Proof.
  unfold list_setitem. destruct (list_index (length l) i) as [p|] eqn:E; [|discriminate].
  intros [= <-]. unfold list_getitem. rewrite length_insert, E.
  rewrite list_lookup_insert_eq by (eapply list_index_lt; eauto). reflexivity.
Qed.


Lemma list_setitem_length l i x l' :
  list_setitem l i x = Ok l' -> length l' = length l.
Proof.
  unfold list_setitem. destruct (list_index (length l) i); [|discriminate].
  intros [= <-]. apply length_insert.
Qed.


Lemma list_getitem_append_last l x :
  list_getitem (list_append l x) (Z.of_nat (length l)) = Ok x.
Proof.
  unfold list_getitem, list_append.
  rewrite list_index_nonneg by (rewrite length_app; simpl; lia).
  rewrite Nat2Z.id, lookup_app_r by lia.
  rewrite Nat.sub_diag. reflexivity.
Qed.
End ListIndex.

(** ** Insertion-ordered dicts *)

Section Dict.
Context {A : Type}.
Implicit Types (d : list (string * A)) (k : string) (x : A).

Lemma dict_get_None d k : dict_get d k = None <-> k ∉ d.*1.
Proof.
  induction d as [|[k' y] d IH]; simpl.
  - split; [intros _; apply not_elem_of_nil | reflexivity].
  - rewrite not_elem_of_cons. destruct (decide (k' = k)) as [->|Hne].
    + split; [discriminate | intros [[] _]; reflexivity].
    + rewrite IH. split; [intros ?; split; [congruence | assumption] | intros [_ ?]; assumption].
Qed.

Lemma dict_contains_keys d k : dict_contains d k = true <-> k ∈ d.*1.
Proof.
  unfold dict_contains. destruct (dict_get d k) eqn:E.
  - split; [intros _ | reflexivity].
    destruct (decide (k ∈ d.*1)) as [|Hn]; [assumption|].
    apply dict_get_None in Hn. congruence.
  - apply dict_get_None in E. split; [discriminate | contradiction].
Qed.

Lemma dict_get_set_same d k x : dict_get (dict_set d k x) k = Some x.
Proof.
  induction d as [|[k' y] d IH]; simpl.
  - rewrite decide_True; reflexivity.
  - destruct (decide (k' = k)) as [->|Hne]; simpl.
    + rewrite decide_True; reflexivity.
    + rewrite decide_False by assumption. exact IH.
Qed.

Lemma dict_get_set_other d k k' x :
  k' <> k -> dict_get (dict_set d k x) k' = dict_get d k'.
Proof.
  intros Hne. induction d as [|[k0 y] d IH]; simpl.
  - rewrite decide_False by congruence. reflexivity.
  - destruct (decide (k0 = k)) as [->|Hk]; simpl.
    + rewrite !decide_False by congruence. reflexivity.
    + destruct (decide (k0 = k')); [reflexivity | exact IH].
Qed.

Lemma dict_set_keys d k x :
  (dict_set d k x).*1 = if dict_contains d k then d.*1 else d.*1 ++ [k].
Proof.
  unfold dict_contains. induction d as [|[k' y] d IH]; csimpl; [reflexivity|].
  destruct (decide (k' = k)) as [->|Hne]; csimpl; [reflexivity|].
  rewrite IH. destruct (dict_get d k); reflexivity.
Qed.


Lemma dict_set_wf d k x : dict_wf d -> dict_wf (dict_set d k x).
Proof.
  unfold dict_wf. rewrite dict_set_keys.
  destruct (dict_contains d k) eqn:E; [tauto|].
  intros Hd. apply NoDup_app. split; [assumption|]. split.
  - intros k' Hin ->%list_elem_of_singleton.
    apply dict_contains_keys in Hin. congruence.
  - apply NoDup_singleton.
Qed.

Lemma dict_set_length d k x :
  length (dict_set d k x) =
  if dict_contains d k then length d else S (length d).
Proof.
  rewrite <- !(length_fmap fst), dict_set_keys.
  destruct (dict_contains d k); [reflexivity|].
  rewrite length_app; simpl; lia.
Qed.
End Dict.

(** Writes under keys that are new and pairwise distinct come out of
    [keys()] after the keys already there, in the order of the writes. *)
Lemma set_calls_keys (calls : list (string * pyobj)) (o : list (string * Node)) :
  NoDup calls.*1 ->
  (forall k, k ∈ calls.*1 -> k ∉ Object_keys o) ->
  Object_keys (set_calls o calls) = Object_keys o ++ calls.*1.
Proof.
  revert o. induction calls as [|[k v] calls IH]; intros o Hnd Hfresh; simpl.
  - rewrite app_nil_r. reflexivity.
  - apply NoDup_cons in Hnd as [Hk Hnd].
    assert (Hnew : Object_keys (Object_setitem o k v) = Object_keys o ++ [k]).
    { unfold Object_keys, Object_setitem. rewrite dict_set_keys.
      destruct (dict_contains o k) eqn:E; [|reflexivity].
      apply dict_contains_keys in E. exfalso.
      apply (Hfresh k); [apply list_elem_of_here | exact E]. }
    unfold set_calls in *. simpl. rewrite IH; [| assumption |].
    + rewrite Hnew, <- app_assoc. reflexivity.
    + intros k' Hin. rewrite Hnew, elem_of_app, list_elem_of_singleton.
      intros [Hold | ->]; [|contradiction].
      apply (Hfresh k'); [apply list_elem_of_further; assumption | assumption].
Qed.

(** ** Object: iteration order *)

(** C1. An object built from the empty one by writes under pairwise
    distinct keys lists its keys, through [keys()], in the order of the
    writes.  A write under a key that is present leaves the order of
    iteration as it was, a write under a new key puts that key at the end;
    in both cases the key is afterwards bound to the written node. *)
Theorem Object_set_order
    (calls : list (string * pyobj)) (o : list (string * Node))
    (k : string) (v : pyobj) :
  NoDup calls.*1 ->
  Object_keys (set_calls [] calls) = calls.*1 /\
  Object_keys (Object_setitem o k v) =
    (if Object_contains o k then Object_keys o else Object_keys o ++ [k]) /\
  Object_getitem (Object_setitem o k v) k = Ok (node_of v).
Proof.
  intros Hnd. split; [|split].
  - rewrite set_calls_keys; [reflexivity | assumption |].
    intros k' _. apply not_elem_of_nil.
  - apply dict_set_keys.
  - unfold Object_getitem, Object_setitem.
    rewrite dict_get_set_same. reflexivity.
Qed.

Lemma Object_set_order_witness :
  let o := [("a", Node_new (PyValue (Int 1))); ("b", Node_new (PyValue Null))] in
  Object_keys (set_calls [] [("x", NotNode (PyInt 1)); ("a", NotNode (PyInt 2));
                             ("m", IsNode (Node_new (PyValue (Bool true))))])
    = ["x"; "a"; "m"] /\
  Object_keys (Object_setitem o "a" (NotNode (PyInt 5))) = ["a"; "b"] /\
  Object_getitem (Object_setitem o "a" (NotNode (PyInt 5))) "a"
    = Ok (Node_new (PyInt 5)).
Proof.
  intros o.
  apply (Object_set_order
           [("x", NotNode (PyInt 1)); ("a", NotNode (PyInt 2));
            ("m", IsNode (Node_new (PyValue (Bool true))))]
           o "a" (NotNode (PyInt 5))).
  apply (bool_decide_unpack _). vm_compute. exact I.
Defined.

(** ** Array: bounds *)

(** C4, as the code has it.  An index below [-len] or from [len] on makes
    [get] and [set] raise [IndexError], so [get(len)] and [set(len, v)]
    do; an index in [[-len, 0)] addresses the slot [len + i], and every
    index in [[-len, len)] is served. *)
Theorem Array_index_bounds (self : list Node) (i : Z) (v : pyobj) :
  (i < - Array_len self \/ Array_len self <= i ->
     is_IndexError (Array_getitem self i) = true /\
     is_IndexError (Array_setitem self i v) = true) /\
  is_IndexError (Array_getitem self (Array_len self)) = true /\
  is_IndexError (Array_setitem self (Array_len self) v) = true /\
  (- Array_len self <= i < 0 ->
     Array_getitem self i = Array_getitem self (Array_len self + i) /\
     Array_setitem self i v = Array_setitem self (Array_len self + i) v) /\
  (- Array_len self <= i < Array_len self ->
     is_ok (Array_getitem self i) = true /\
     is_ok (Array_setitem self i v) = true).
Proof.
  unfold Array_len, Array_getitem, Array_setitem, list_setitem.
  assert (Hout : forall j, j < - Z.of_nat (length self) \/ Z.of_nat (length self) <= j ->
            is_IndexError (list_getitem self j) = true /\
            is_IndexError
              (match list_index (length self) j with
               | Some p => Ok (<[p:=node_of v]> self)
               | None => Raise (IndexError "list assignment index out of range")
               end) = true).
  { intros j Hj. unfold list_getitem.
    rewrite (list_index_out _ _ Hj). split; reflexivity. }
  split; [apply Hout|].
  split; [apply Hout; lia|].
  split; [apply Hout; lia|].
  split.
  - intros Hi. unfold list_getitem.
    rewrite (list_index_neg _ _ Hi).
    rewrite list_index_nonneg by lia.
    replace (Z.of_nat (length self) + i) with (i + Z.of_nat (length self)) by lia.
    split; reflexivity.
  - intros Hi.
    assert (Hs : exists p, list_index (length self) i = Some p).
    { destruct (Z.lt_ge_cases i 0).
      - eexists. apply list_index_neg. lia.
      - eexists. apply list_index_nonneg. lia. }
    destruct Hs as [p Hp].
    destruct (list_getitem_slot self i p Hp) as (x & _ & ->).
    rewrite Hp. split; reflexivity.
Qed.

Lemma Array_index_bounds_witness :
  let a := [Node_new (PyValue (Int 1)); Node_new (PyValue (Int 2))] in
  is_IndexError (Array_getitem a (-3)) = true /\
  is_IndexError (Array_setitem a (-3) (NotNode (PyInt 9))) = true.
Proof.
  intros a.
  apply (proj1 (Array_index_bounds a (-3) (NotNode (PyInt 9)))).
  left. vm_compute. reflexivity.
Defined.

(** C4 as stated fails: the index [-1] lies outside [[0, len)], and [get]
    and [set] serve it, on the last slot. *)
Lemma Array_negative_index_served :
  let a := [Node_new (PyValue (Int 1)); Node_new (PyValue (Int 2))] in
  ~ (0 <= -1 < Array_len a) /\
  Array_getitem a (-1) = Ok (Node_new (PyValue (Int 2))) /\
  Array_setitem a (-1) (NotNode (PyInt 9)) =
    Ok [Node_new (PyValue (Int 1)); Node_new (PyInt 9)] /\
  ~ (forall (self : list Node) (i : Z) (v : pyobj),
       ~ (0 <= i < Array_len self) ->
       is_IndexError (Array_getitem self i) = true /\
       is_IndexError (Array_setitem self i v) = true).
Proof.
  intros a. split; [lia|]. split; [reflexivity|]. split; [reflexivity|].
  intros H.
  destruct (H a (-1) (NotNode (PyInt 9))) as [Hget _]; [lia|].
  vm_compute in Hget. discriminate Hget.
Qed.

(** ** Array: what a write stores *)

(** C5, as the code has it.  A write of a value that is not a [Node]
    stores [Node.new] of that very value: [set(i, p)] and
    [set(i, Node.new(p))] give the same array, so [set(0, Int(5))] is
    [set(0, Node.new(Int(5)))]; on an array that is not empty slot 0 then
    holds [Node.new(p)]. *)
Theorem Array_set_wraps_as_given (self : list Node) (i : Z) (p : payload) :
  Array_setitem self i (NotNode p) = Array_setitem self i (IsNode (Node_new p)) /\
  Array_setitem self 0 (NotNode (PyValue (Int 5))) =
    Array_setitem self 0 (IsNode (Node_new (PyValue (Int 5)))) /\
  (1 <= Array_len self ->
   exists self', Array_setitem self 0 (NotNode p) = Ok self' /\
                 Array_getitem self' 0 = Ok (Node_new p) /\
                 Node_value (Node_new p) = p).
Proof.
  split; [reflexivity|]. split; [reflexivity|].
  intros Hlen. unfold Array_len in Hlen.
  unfold Array_setitem, list_setitem.
  rewrite list_index_nonneg by lia. eexists. split; [reflexivity|].
  split; [|reflexivity].
  apply (list_get_set_same self 0). unfold list_setitem.
  rewrite list_index_nonneg by lia. reflexivity.
Qed.

Lemma Array_set_wraps_as_given_witness :
  exists self',
    Array_setitem [Node_init None None None] 0 (NotNode (PyInt 5)) = Ok self' /\
    Array_getitem self' 0 = Ok (Node_new (PyInt 5)) /\
    Node_value (Node_new (PyInt 5)) = PyInt 5.
Proof.
  apply (proj2 (proj2 (Array_set_wraps_as_given
                         [Node_init None None None] 0 (PyInt 5)))).
  vm_compute. discriminate.
Defined.

(** C5 as stated fails: written bare, the integer 5 is stored as the value
    of the new node as it is, and not as [Int(5)]; the two arrays differ. *)
Lemma Array_set_bare_int_not_Int :
  let a := [Node_init None None None] in
  1 <= Array_len a /\
  Array_setitem a 0 (NotNode (PyInt 5)) = Ok [mkNode [] [] (PyInt 5)] /\
  Array_setitem a 0 (IsNode (Node_new (PyValue (Int 5)))) =
    Ok [mkNode [] [] (PyValue (Int 5))] /\
  Array_setitem a 0 (NotNode (PyInt 5)) <>
    Array_setitem a 0 (IsNode (Node_new (PyValue (Int 5)))).
Proof.
  intros a. split; [vm_compute; discriminate|].
  split; [reflexivity|]. split; [reflexivity|].
  vm_compute. discriminate.
Qed.

(** ** Writes that are given a Node *)

(** C9. A write that is given a [Node] stores that node itself, with its
    tags, its annotations and its value: [Array] [set] and [append],
    [Object] [set] and the integer-indexed [set] of [Document] read back
    the node they were given; only an argument that is not a [Node] goes
    through [Node.new]. *)
Theorem given_Node_stored_as_is
    (n : Node) (a : list Node) (i : Z) (o : list (string * Node))
    (k : string) (d : Document) :
  (forall a', Array_setitem a i (IsNode n) = Ok a' ->
     Array_getitem a' i = Ok n /\ n ∈ a') /\
  (- Array_len a <= i < Array_len a ->
     exists a', Array_setitem a i (IsNode n) = Ok a' /\ Array_getitem a' i = Ok n) /\
  Array_append a (IsNode n) = a ++ [n] /\
  Array_getitem (Array_append a (IsNode n)) (Array_len a) = Ok n /\
  Object_setitem [] k (IsNode n) = [(k, n)] /\
  Object_getitem (Object_setitem o k (IsNode n)) k = Ok n /\
  (forall d', Document_setitem d (KeyInt i) (IsNode n) = Ok d' ->
     Document_getitem d' (KeyInt i) = Ok n /\ n ∈ values d') /\
  (- Z.of_nat (length (values d)) <= i < Z.of_nat (length (values d)) ->
     exists d', Document_setitem d (KeyInt i) (IsNode n) = Ok d' /\
                Document_getitem d' (KeyInt i) = Ok n) /\
  node_of (IsNode n) = n /\
  (forall p, node_of (NotNode p) = mkNode [] [] p).
Proof.
  assert (Hset : forall (l l' : list Node),
            list_setitem l i n = Ok l' -> list_getitem l' i = Ok n /\ n ∈ l').
  { intros l l' H. split; [eapply list_get_set_same; exact H|].
    unfold list_setitem in H.
    destruct (list_index (length l) i) as [p|] eqn:E; [|discriminate].
    injection H as <-. apply list_elem_of_lookup. exists p.
    apply list_lookup_insert_eq. eapply list_index_lt; exact E. }
  assert (Hex : forall (l : list Node),
            - Z.of_nat (length l) <= i < Z.of_nat (length l) ->
            exists l', list_setitem l i n = Ok l').
  { intros l H. unfold list_setitem.
    destruct (Z.lt_ge_cases i 0).
    - rewrite list_index_neg by lia. eauto.
    - rewrite list_index_nonneg by lia. eauto. }
  split; [|split; [|split; [|split; [|split; [|split; [|split; [|split; [|split]]]]]]]].
  - intros a' Ha. apply (Hset a a'). exact Ha.
  - intros Hi. destruct (Hex a Hi) as [a' Ha]. exists a'.
    split; [exact Ha | apply (Hset a a' Ha)].
  - reflexivity.
  - apply list_getitem_append_last.
  - reflexivity.
  - unfold Object_getitem, Object_setitem. rewrite dict_get_set_same. reflexivity.
  - intros d' Hd. unfold Document_setitem in Hd.
    destruct (list_setitem (values d) i (node_of (IsNode n))) as [vs|e] eqn:E;
      [|discriminate].
    injection Hd as <-. simpl. apply (Hset (values d) vs). exact E.
  - intros Hi. destruct (Hex (values d) Hi) as [vs Hvs].
    exists (mkDocument (prolog d) vs). unfold Document_setitem. simpl.
    rewrite Hvs. split; [reflexivity|]. simpl. apply (Hset (values d) vs Hvs).
  - reflexivity.
  - reflexivity.
Qed.

Lemma given_Node_stored_as_is_witness :
  let n := mkNode [mkTag "t"] [mkAnnotation "mime" [String "image/png"]]
             (PyValue (Int 7)) in
  let a := [Node_new (PyValue Null); Node_new (PyValue (Bool true))] in
  Array_getitem [Node_new (PyValue Null); n] (-1) = Ok n /\
  n ∈ [Node_new (PyValue Null); n].
Proof.
  intros n a.
  apply (proj1 (given_Node_stored_as_is n a (-1) [] "k" (mkDocument [] a))
           [Node_new (PyValue Null); n]).
  reflexivity.
Defined.

(** ** Frame properties of the writes *)



(** ** Document: string keys *)

Lemma first_object_Some (d : Document) (o : list (string * Node)) :
  first_object d = Some o <->
  exists t a rest, values d = mkNode t a (PyValue (Object o)) :: rest.
Proof.
  unfold first_object. split.
  - destruct (values d) as [|[t a p] rest]; [discriminate|]. simpl.
    destruct p as [| | | | |[]| |]; try discriminate.
    intros [= ->]. eauto.
  - intros (t & a & rest & ->). reflexivity.
Qed.

Lemma first_object_None (d : Document) :
  first_object d = None <->
  values d = [] \/
  exists n rest, values d = n :: rest /\ is_Object (Node_value n) = false.
Proof.
  unfold first_object. split.
  - destruct (values d) as [|[t a p] rest]; [left; reflexivity|]. simpl.
    intros H. right. exists (mkNode t a p), rest. split; [reflexivity|].
    simpl. destruct p as [| | | | |[]| |]; (reflexivity || discriminate).
  - intros [-> | (n & rest & -> & Hn)]; [reflexivity|].
    destruct n as [t a p]. simpl in *.
    destruct p as [| | | | |[]| |]; (reflexivity || discriminate).
Qed.

(** C2. [document[k]] for a string [k] is the node the object of the first
    top-level value binds to [k], when there is a first value, it is an
    [Object] and it has [k]; with no value, with a first value that is
    not an [Object], or with an object that lacks [k], the read raises
    [KeyError]. *)
Theorem Document_getitem_str (d : Document) (k : string) :
  (forall n0 rest o n,
     values d = n0 :: rest -> Node_value n0 = PyValue (Object o) ->
     dict_get o k = Some n ->
     Document_getitem d (KeyStr k) = Ok n /\
     Object_getitem o k = Ok n) /\
  (values d = [] -> is_KeyError (Document_getitem d (KeyStr k)) = true) /\
  (forall n0 rest,
     values d = n0 :: rest -> is_Object (Node_value n0) = false ->
     is_KeyError (Document_getitem d (KeyStr k)) = true) /\
  (forall n0 rest o,
     values d = n0 :: rest -> Node_value n0 = PyValue (Object o) ->
     Object_contains o k = false ->
     is_KeyError (Document_getitem d (KeyStr k)) = true) /\
  (forall n, Document_getitem d (KeyStr k) = Ok n <->
     exists o, first_object d = Some o /\ dict_get o k = Some n).
Proof.
  unfold Document_getitem, Object_getitem, Object_contains, dict_contains.
  split; [|split; [|split; [|split]]].
  - intros [t a p] rest o n -> Hp Hk. simpl in Hp. subst p.
    rewrite Hk. split; reflexivity.
  - intros ->. reflexivity.
  - intros [t a p] rest -> Hp. simpl in Hp.
    destruct p as [| | | | |[]| |]; (reflexivity || discriminate).
  - intros [t a p] rest o -> Hp Hk. simpl in Hp. subst p.
    destruct (dict_get o k); [discriminate | reflexivity].
  - intros n. destruct (first_object d) as [o|] eqn:E.
    + apply first_object_Some in E as (t & a & rest & ->).
      destruct (dict_get o k) as [n'|] eqn:Hk.
      * split; [intros [= ->]; eauto | intros (o' & [= <-] & H); congruence].
      * split; [discriminate | intros (o' & [= <-] & H); congruence].
    + split; [|intros (o & Ho & _); discriminate].
      apply first_object_None in E as [-> | ([t a p] & rest & -> & Hp)];
        [discriminate|].
      simpl in Hp. destruct p as [| | | | |[]| |]; discriminate.
Qed.

Lemma Document_getitem_str_witness :
  let o := [("a", Node_new (PyValue (Int 1)))] in
  let d := mkDocument [] [Node_new (PyValue (Object o))] in
  (Document_getitem d (KeyStr "a") = Ok (Node_new (PyValue (Int 1))) /\
   Object_getitem o "a" = Ok (Node_new (PyValue (Int 1)))) /\
  is_KeyError (Document_getitem d (KeyStr "b")) = true /\
  is_KeyError (Document_getitem Document_new (KeyStr "a")) = true /\
  is_KeyError (Document_getitem (mkDocument [] [Node_new (PyValue (Array []))])
                 (KeyStr "a")) = true.
Proof.
  intros o d. split; [|split; [|split]].
  - apply (proj1 (Document_getitem_str d "a")
             (Node_new (PyValue (Object o))) [] o); reflexivity.
  - apply (proj1 (proj2 (proj2 (proj2 (Document_getitem_str d "b"))))
             (Node_new (PyValue (Object o))) [] o); reflexivity.
  - apply (proj1 (proj2 (Document_getitem_str Document_new "a"))). reflexivity.
  - apply (proj1 (proj2 (proj2 (Document_getitem_str
                                  (mkDocument [] [Node_new (PyValue (Array []))]) "a")))
             (Node_new (PyValue (Array []))) []); reflexivity.
Defined.

(** C8. [k in document] is true exactly when there is a first top-level
    value, it is an [Object] and it has [k]; in every other case the test
    is false.  The test is a total function to [bool]: no case raises. *)
Theorem Document_contains_iff (d : Document) (k : string) :
  (Document_contains d k = true <->
   exists n0 rest o,
     values d = n0 :: rest /\ Node_value n0 = PyValue (Object o) /\
     Object_contains o k = true) /\
  (Document_contains d k = true <->
   exists o, first_object d = Some o /\ k ∈ Object_keys o) /\
  (Document_contains d k =
   match first_object d with
   | Some o => bool_decide (is_Some (dict_get o k))
   | None => false
   end).
Proof.
  assert (H3 : Document_contains d k =
               match first_object d with
               | Some o => Object_contains o k
               | None => false
               end).
  { unfold Document_contains, first_object.
    destruct (values d) as [|[t a p] rest]; [reflexivity|]. simpl.
    destruct p as [| | | | |[]| |]; reflexivity. }
  split; [|split].
  - rewrite H3. split.
    + destruct (first_object d) as [o|] eqn:E; [|discriminate].
      apply first_object_Some in E as (t & a & rest & E). intros Hk.
      exists (mkNode t a (PyValue (Object o))), rest, o. auto.
    + intros ([t a p] & rest & o & Hv & Hp & Hk). simpl in Hp. subst p.
      rewrite (proj2 (first_object_Some d o)) by eauto. exact Hk.
  - rewrite H3. split.
    + destruct (first_object d) as [o|]; [|discriminate].
      intros Hk. exists o. split; [reflexivity|].
      apply dict_contains_keys. exact Hk.
    + intros (o & -> & Hk). apply dict_contains_keys. exact Hk.
  - rewrite H3. destruct (first_object d) as [o|]; [|reflexivity].
    unfold Object_contains, dict_contains.
    destruct (dict_get o k) eqn:E.
    + symmetry. apply bool_decide_eq_true. eauto.
    + symmetry. apply bool_decide_eq_false. intros [? ?]. discriminate.
Qed.

(** C3. [document[k] = v] for a string [k]: on a document with no value a
    node around an empty [Object] is appended first and [k] is set on it,
    after which [document[k]] is the written node and [document[0]] is an
    [Object] with that one entry; on a document whose first value is an
    [Object], [k] is set on that object, the rest of the document
    unchanged; on a document whose first value is not an [Object] the
    write raises [TypeError]. *)
Theorem Document_setitem_str (d : Document) (k : string) (v : pyobj) :
  (values d = [] ->
   exists d',
     Document_setitem d (KeyStr k) v = Ok d' /\
     prolog d' = prolog d /\
     values d' = [Node_new (PyValue (Object [(k, node_of v)]))] /\
     Document_getitem d' (KeyStr k) = Ok (node_of v) /\
     Document_getitem d' (KeyInt 0) =
       Ok (Node_new (PyValue (Object [(k, node_of v)]))) /\
     Document_contains d' k = true) /\
  (forall t a o rest,
     values d = mkNode t a (PyValue (Object o)) :: rest ->
     exists d',
       Document_setitem d (KeyStr k) v = Ok d' /\
       prolog d' = prolog d /\
       values d' =
         mkNode t a (PyValue (Object (Object_setitem o k v))) :: rest /\
       Document_getitem d' (KeyStr k) = Ok (node_of v)) /\
  (forall n0 rest,
     values d = n0 :: rest -> is_Object (Node_value n0) = false ->
     Document_setitem d (KeyStr k) v =
       Raise (TypeError "First document value is not an Object")).
Proof.
  unfold Document_setitem. split; [|split].
  - intros ->. simpl. eexists. split; [reflexivity|]. simpl.
    unfold Document_getitem, Document_contains, Object_getitem,
      Object_contains, dict_contains. simpl.
    rewrite decide_True by reflexivity. repeat split; reflexivity.
  - intros t a o rest ->. eexists. split; [reflexivity|]. simpl.
    repeat split. unfold Object_getitem, Object_setitem.
    rewrite dict_get_set_same. reflexivity.
  - intros [t a p] rest -> Hp. simpl in Hp.
    destruct p as [| | | | |[]| |]; (reflexivity || discriminate).
Qed.

Lemma Document_setitem_str_witness :
  (exists d',
     Document_setitem Document_new (KeyStr "a") (NotNode (PyInt 1)) = Ok d' /\
     prolog d' = [] /\
     values d' = [Node_new (PyValue (Object [("a", Node_new (PyInt 1))]))] /\
     Document_getitem d' (KeyStr "a") = Ok (Node_new (PyInt 1)) /\
     Document_getitem d' (KeyInt 0) =
       Ok (Node_new (PyValue (Object [("a", Node_new (PyInt 1))]))) /\
     Document_contains d' "a" = true) /\
  Document_setitem (mkDocument [] [Node_new (PyValue (Int 3))]) (KeyStr "a")
    (NotNode (PyInt 1)) =
    Raise (TypeError "First document value is not an Object").
Proof.
  split.
  - apply (proj1 (Document_setitem_str Document_new "a" (NotNode (PyInt 1)))).
    reflexivity.
  - apply (proj2 (proj2 (Document_setitem_str
                           (mkDocument [] [Node_new (PyValue (Int 3))]) "a"
                           (NotNode (PyInt 1))))
             (Node_new (PyValue (Int 3))) []); reflexivity.
Defined.

(** ** Node *)

(** C6, on the code.  [Node()] has no tag and no annotation, and its
    [value] is [None]: it is not an instance of [Null], and the delegation
    methods name it [NoneType]. *)
Theorem Node_default_value :
  Node_tags (Node_init None None None) = [] /\
  Node_annotations (Node_init None None None) = [] /\
  Node_value (Node_init None None None) = PyNone /\
  Node_value (Node_init None None None) <> PyValue Null /\
  is_Null (Node_value (Node_init None None None)) = false /\
  type_name (Node_value (Node_init None None None)) = "NoneType".
Proof. repeat split; (reflexivity || discriminate). Qed.

(** C7, as the code has it.  On a node whose value is [None], a bare
    scalar or an instance of a [Value] class, [get], [keys],
    [values_iter] and [items] return exactly when the value is an
    [Object], and then what the object's method returns; [append] returns
    exactly when the value is an [Array], and then appends to it; on any
    other such value each raises [AttributeError] with a message that
    starts with the name of the value's type.  The methods are chosen by
    attribute, not by class: on a bare [dict], [get], [keys] and [items]
    return what the dict's own methods return ([values_iter] raises), and
    on a bare [list], [append] stores the value as it is given. *)
Theorem Node_delegation (self : Node) (key : string) (default v : pyobj) :
  (is_value_or_scalar (Node_value self) = true ->
   is_ok (Node_get self key default) = is_Object (Node_value self) /\
   is_ok (Node_keys self) = is_Object (Node_value self) /\
   is_ok (Node_values_iter self) = is_Object (Node_value self) /\
   is_ok (Node_items self) = is_Object (Node_value self) /\
   is_ok (Node_append self v) = is_Array (Node_value self) /\
   (is_Object (Node_value self) = false ->
      let ty := type_name (Node_value self) in
      Node_get self key default =
        Raise (AttributeError ("'" +:+ ty +:+ "' object has no attribute 'get'")) /\
      Node_keys self =
        Raise (AttributeError ("'" +:+ ty +:+ "' object has no attribute 'keys'")) /\
      Node_values_iter self =
        Raise (AttributeError
                 ("'" +:+ ty +:+ "' object has no attribute 'values_iter'")) /\
      Node_items self =
        Raise (AttributeError ("'" +:+ ty +:+ "' object has no attribute 'items'"))) /\
   (is_Array (Node_value self) = false ->
      Node_append self v =
        Raise (AttributeError
                 ("'" +:+ type_name (Node_value self) +:+
                  "' object has no attribute 'append'")))) /\
  (forall d, Node_value self = PyValue (Object d) ->
     Node_get self key default = Ok (Object_get d key default) /\
     Node_keys self = Ok (Object_keys d) /\
     Node_values_iter self = Ok (Object_values_iter d) /\
     Node_items self = Ok (prod_map id IsNode <$> Object_items d)) /\
  (forall l, Node_value self = PyValue (Array l) ->
     Node_append self v =
       Ok (mkNode (Node_tags self) (Node_annotations self)
             (PyValue (Array (Array_append l v))))) /\
  (forall d, Node_value self = PyDict d ->
     Node_get self key default = Ok (bare_dict_get d key default) /\
     Node_keys self = Ok d.*1 /\
     Node_items self = Ok d /\
     Node_values_iter self =
       Raise (AttributeError "'dict' object has no attribute 'values_iter'") /\
     Node_append self v =
       Raise (AttributeError "'dict' object has no attribute 'append'")) /\
  (forall l, Node_value self = PyList l ->
     Node_append self v =
       Ok (mkNode (Node_tags self) (Node_annotations self) (PyList (l ++ [v]))) /\
     Node_get self key default =
       Raise (AttributeError "'list' object has no attribute 'get'") /\
     Node_keys self =
       Raise (AttributeError "'list' object has no attribute 'keys'") /\
     Node_items self =
       Raise (AttributeError "'list' object has no attribute 'items'")).
Proof.
  destruct self as [t a p].
  unfold Node_get, Node_keys, Node_values_iter, Node_items, Node_append.
  simpl Node_value.
  destruct p as [| | | | |[]| |]; simpl;
    repeat match goal with
      | |- _ /\ _ => split
      | |- forall _, _ = _ -> _ => intros ? ?
      | |- _ = _ -> _ => intros ?
      | H : PyValue _ = PyValue _ |- _ => injection H as <-
      | H : PyDict _ = PyDict _ |- _ => injection H as <-
      | H : PyList _ = PyList _ |- _ => injection H as <-
      end;
    reflexivity || discriminate.
Qed.

Lemma Node_delegation_witness :
  let self := Node_new (PyValue (Int 3)) in
  is_ok (Node_get self "k" (NotNode PyNone)) = is_Object (Node_value self) /\
  is_ok (Node_keys self) = is_Object (Node_value self) /\
  is_ok (Node_values_iter self) = is_Object (Node_value self) /\
  is_ok (Node_items self) = is_Object (Node_value self) /\
  is_ok (Node_append self (NotNode PyNone)) = is_Array (Node_value self) /\
  (is_Object (Node_value self) = false ->
     let ty := type_name (Node_value self) in
     Node_get self "k" (NotNode PyNone) =
       Raise (AttributeError ("'" +:+ ty +:+ "' object has no attribute 'get'")) /\
     Node_keys self =
       Raise (AttributeError ("'" +:+ ty +:+ "' object has no attribute 'keys'")) /\
     Node_values_iter self =
       Raise (AttributeError
                ("'" +:+ ty +:+ "' object has no attribute 'values_iter'")) /\
     Node_items self =
       Raise (AttributeError ("'" +:+ ty +:+ "' object has no attribute 'items'"))) /\
  (is_Array (Node_value self) = false ->
     Node_append self (NotNode PyNone) =
       Raise (AttributeError
                ("'" +:+ type_name (Node_value self) +:+
                 "' object has no attribute 'append'"))).
Proof.
  intros self.
  apply (proj1 (Node_delegation self "k" (NotNode PyNone) (NotNode PyNone))).
  reflexivity.
Defined.

(** C7 as stated fails: a write stores a bare [dict] or [list] as it is
    given, and on the node that holds it [get], [keys] and [items], or
    [append], return although the value is no [Object] and no [Array]. *)
Lemma Node_delegation_duck_typed :
  let cfg := PyDict [("a", NotNode (PyInt 1))] in
  let o := Object_setitem [] "cfg" (NotNode cfg) in
  let ids := Array_append [] (NotNode (PyList [])) in
  Object_getitem o "cfg" = Ok (Node_new cfg) /\
  is_Object (Node_value (Node_new cfg)) = false /\
  Node_get (Node_new cfg) "a" (NotNode PyNone) = Ok (NotNode (PyInt 1)) /\
  Node_keys (Node_new cfg) = Ok ["a"] /\
  Node_items (Node_new cfg) = Ok [("a", NotNode (PyInt 1))] /\
  Array_getitem ids 0 = Ok (Node_new (PyList [])) /\
  is_Array (Node_value (Node_new (PyList []))) = false /\
  Node_append (Node_new (PyList [])) (NotNode (PyInt 1)) =
    Ok (Node_new (PyList [NotNode (PyInt 1)])) /\
  ~ (forall (self : Node) (key : string) (default v : pyobj),
       is_ok (Node_get self key default) = is_Object (Node_value self) /\
       is_ok (Node_append self v) = is_Array (Node_value self)).
Proof.
  intros cfg o ids. repeat split.
  intros H.
  destruct (H (Node_new cfg) "a" (NotNode PyNone) (NotNode PyNone)) as [Hget _].
  discriminate Hget.
Qed.

(** ** The scenarios of the examples, run on the model *)

(** A document whose first value is the object [{a: 1}]. *)
Example document_fallback_indexing :
  let o := PyValue (Object [("a", Node_new (PyValue (Int 1)))]) in
  let d := mkDocument [] [Node_new o] in
  Document_getitem d (KeyStr "a") = Ok (Node_new (PyValue (Int 1))) /\
  Document_getitem d (KeyInt 0) = Ok (Node_new o) /\
  Document_contains d "b" = false /\
  Document_getitem d (KeyStr "b") = Raise (KeyError "b").
Proof. repeat split. Qed.

(** [{name: "demo", ids: [1, 2, 3]}]: lookups, length, membership and the
    defaulted read. *)
Example config_scenario :
  let ids := [Node_new (PyValue (Int 1)); Node_new (PyValue (Int 2));
              Node_new (PyValue (Int 3))] in
  let config := [("name", Node_new (PyValue (String "demo")));
                 ("ids", Node_new (PyValue (Array ids)))] in
  Object_getitem config "name" = Ok (Node_new (PyValue (String "demo"))) /\
  Array_getitem ids 0 = Ok (Node_new (PyValue (Int 1))) /\
  Array_len ids = 3 /\
  Object_contains config "missing" = false /\
  Node_get (Node_new (PyValue (Object config))) "missing" (NotNode (PyStr "x"))
    = Ok (NotNode (PyStr "x")) /\
  Node_keys (Node_new (PyValue (Object config))) = Ok ["name"; "ids"].
Proof. repeat split. Qed.

(** [Node().get(...)] names [NoneType]. *)
Example default_node_get :
  Node_get (Node_init None None None) "k" (NotNode PyNone) =
  Raise (AttributeError "'NoneType' object has no attribute 'get'").
Proof. reflexivity. Qed.

(** * Further properties of the module *)

(** ** Dicts: repeated writes, membership of entries *)

Section DictMore.
Context {A : Type}.
Implicit Types (d : list (string * A)) (k : string) (x : A).

Lemma dict_set_set d k x y : dict_set (dict_set d k x) k y = dict_set d k y.
Proof.
  induction d as [|[k' z] d IH]; simpl.
  - rewrite decide_True; reflexivity.
  - destruct (decide (k' = k)) as [->|Hne]; simpl.
    + rewrite decide_True; reflexivity.
    + rewrite decide_False by assumption. rewrite IH. reflexivity.
Qed.

Lemma dict_get_app d1 d2 k :
  dict_get (d1 ++ d2) k =
  match dict_get d1 k with Some x => Some x | None => dict_get d2 k end.
Proof.
  induction d1 as [|[k' z] d1 IH]; simpl; [reflexivity|].
  destruct (decide (k' = k)); [reflexivity | exact IH].
Qed.

Lemma dict_get_elem_of d k x : dict_get d k = Some x -> (k, x) ∈ d.
Proof.
  induction d as [|[k' z] d IH]; simpl; [discriminate|].
  destruct (decide (k' = k)) as [->|Hne].
  - intros [= ->]. apply list_elem_of_here.
  - intros H. apply list_elem_of_further, IH, H.
Qed.

Lemma dict_elem_of_get d k x : dict_wf d -> (k, x) ∈ d -> dict_get d k = Some x.
Proof.
  unfold dict_wf. induction d as [|[k' z] d IH]; csimpl.
  - intros _ H. apply elem_of_nil in H. contradiction.
  - intros [Hk Hd]%NoDup_cons [H|H]%elem_of_cons.
    + injection H as -> ->. rewrite decide_True; reflexivity.
    + destruct (decide (k' = k)) as [->|Hne]; [|apply IH; assumption].
      exfalso. apply Hk. apply list_elem_of_fmap. exists (k, x). split; [reflexivity | exact H].
Qed.
End DictMore.

Lemma set_calls_app (o : list (string * Node)) (c1 c2 : list (string * pyobj)) :
  set_calls o (c1 ++ c2) = set_calls (set_calls o c1) c2.
Proof. unfold set_calls. apply foldl_app. Qed.

Lemma set_calls_key_set (calls : list (string * pyobj)) (o : list (string * Node)) (k : string) :
  k ∈ Object_keys (set_calls o calls) <-> k ∈ Object_keys o \/ k ∈ calls.*1.
Proof.
  revert o. induction calls as [|[k' v] calls IH]; intros o; csimpl.
  - split; [auto | intros [H|H]; [exact H | apply elem_of_nil in H; contradiction]].
  - change (set_calls o ((k', v) :: calls))
      with (set_calls (Object_setitem o k' v) calls).
    rewrite IH. unfold Object_keys, Object_setitem. rewrite dict_set_keys.
    rewrite elem_of_cons.
    destruct (dict_contains o k') eqn:E.
    + apply dict_contains_keys in E. split; [tauto|].
      intros [H|[->|H]]; tauto.
    + rewrite elem_of_app, list_elem_of_singleton. tauto.
Qed.

Lemma set_calls_wf (calls : list (string * pyobj)) (o : list (string * Node)) :
  dict_wf o -> dict_wf (set_calls o calls).
Proof.
  revert o. induction calls as [|[k v] calls IH]; intros o Ho; [exact Ho|].
  change (set_calls o ((k, v) :: calls))
    with (set_calls (Object_setitem o k v) calls).
  apply IH. apply dict_set_wf. exact Ho.
Qed.

(** ** Object: lookups, length, repeated writes *)

(** X1. The three reads of an [Object] agree: [k in o] tells whether
    [o[k]] returns; [o.get(k, default)] is the node [o[k]] returns when it
    returns, and [default] when [o[k]] raises, which it does with
    [KeyError(k)]; so a result of [get] other than [default] comes from a
    key that is present. *)
Theorem Object_reads_agree
    (o : list (string * Node)) (k : string) (default : pyobj) :
  Object_contains o k = is_ok (Object_getitem o k) /\
  Object_get o k default =
    match Object_getitem o k with
    | Ok n => IsNode n
    | Raise _ => default
    end /\
  (forall n, Object_getitem o k = Ok n -> Object_get o k default = IsNode n) /\
  (Object_contains o k = false ->
     Object_getitem o k = Raise (KeyError k) /\ Object_get o k default = default) /\
  (Object_get o k default <> default -> Object_contains o k = true) /\
  (Object_contains o k = true <-> k ∈ Object_keys o).
Proof.
  unfold Object_contains, Object_getitem, Object_get, dict_contains.
  split; [|split; [|split; [|split; [|split]]]].
  - destruct (dict_get o k); reflexivity.
  - destruct (dict_get o k); reflexivity.
  - intros n. destruct (dict_get o k); [intros [= ->]; reflexivity | discriminate].
  - destruct (dict_get o k); [discriminate | split; reflexivity].
  - destruct (dict_get o k); [reflexivity | intros H; exfalso; apply H; reflexivity].
  - apply dict_contains_keys.
Qed.

(** X2. [len(o)] counts the keys, the values and the items alike; a
    write under a new key makes it one more, a write under a present key
    leaves it. *)
Theorem Object_len_set (o : list (string * Node)) (k : string) (v : pyobj) :
  Object_len (Object_setitem o k v) =
    (if Object_contains o k then Object_len o else Object_len o + 1) /\
  Object_len o = Z.of_nat (length (Object_keys o)) /\
  Object_len o = Z.of_nat (length (Object_values_iter o)) /\
  Object_len o = Z.of_nat (length (Object_items o)) /\
  Object_iter o = Object_keys o.
Proof.
  unfold Object_len, Object_setitem, Object_contains, Object_keys,
    Object_values_iter, Object_items, Object_iter.
  rewrite dict_set_length, !length_fmap. repeat split.
  destruct (dict_contains o k); lia.
Qed.

(** X3. Two writes under one key leave what the second alone leaves; two
    writes under different keys can be swapped without a change in what
    any key reads. *)
Theorem Object_set_twice
    (o : list (string * Node)) (k k1 k2 : string) (v1 v2 : pyobj) :
  Object_setitem (Object_setitem o k v1) k v2 = Object_setitem o k v2 /\
  (k1 <> k2 ->
   forall k',
     Object_getitem (Object_setitem (Object_setitem o k1 v1) k2 v2) k' =
     Object_getitem (Object_setitem (Object_setitem o k2 v2) k1 v1) k').
Proof.
  unfold Object_setitem, Object_getitem. split; [apply dict_set_set|].
  intros Hne k'.
  destruct (decide (k' = k2)) as [->|H2].
  - rewrite dict_get_set_same.
    rewrite (dict_get_set_other _ k1 k2) by congruence.
    rewrite dict_get_set_same. reflexivity.
  - rewrite (dict_get_set_other _ k2 k') by assumption.
    destruct (decide (k' = k1)) as [->|H1].
    + rewrite !dict_get_set_same. reflexivity.
    + rewrite !(dict_get_set_other _ k1 k') by assumption.
      rewrite (dict_get_set_other _ k2 k') by assumption. reflexivity.
Qed.

Lemma Object_set_twice_witness :
  Object_getitem
    (Object_setitem (Object_setitem [("a", Node_new PyNone)] "a" (NotNode (PyInt 1)))
       "b" (NotNode (PyInt 2))) "a" =
  Object_getitem
    (Object_setitem (Object_setitem [("a", Node_new PyNone)] "b" (NotNode (PyInt 2)))
       "a" (NotNode (PyInt 1))) "a".
Proof.
  refine (proj2 (Object_set_twice [("a", Node_new PyNone)] "a" "a" "b"
                   (NotNode (PyInt 1)) (NotNode (PyInt 2))) _ "a").
  discriminate.
Defined.

(** X4. After any run of writes on an object, a key reads the node of the
    last value written under it, and a key the run did not write reads
    what it read before. *)
Theorem Object_last_write_wins
    (calls : list (string * pyobj)) (o : list (string * Node)) (k : string) :
  Object_getitem (set_calls o calls) k =
  match last_write calls k with
  | Some v => Ok (node_of v)
  | None => Object_getitem o k
  end.
Proof.
  revert o. induction calls as [|[k' v] calls IH]; intros o; [reflexivity|].
  change (set_calls o ((k', v) :: calls))
    with (set_calls (Object_setitem o k' v) calls).
  rewrite IH. unfold last_write. rewrite reverse_cons, dict_get_app.
  destruct (dict_get (reverse calls) k); [reflexivity|]. simpl.
  unfold Object_getitem, Object_setitem.
  destruct (decide (k' = k)) as [->|Hne].
  - rewrite dict_get_set_same. reflexivity.
  - rewrite dict_get_set_other by congruence. reflexivity.
Qed.

(** X5. An object built from the empty one by any run of writes holds
    each key once, and holds exactly the keys that were written. *)
Theorem Object_keys_unique (calls : list (string * pyobj)) :
  NoDup (Object_keys (set_calls [] calls)) /\
  (forall k, k ∈ Object_keys (set_calls [] calls) <-> k ∈ calls.*1) /\
  (forall k, Object_contains (set_calls [] calls) k = true <-> k ∈ calls.*1).
Proof.
  split; [|split].
  - apply (set_calls_wf calls []). apply NoDup_nil_2.
  - intros k. rewrite set_calls_key_set. split; [|auto].
    intros [H|H]; [apply elem_of_nil in H; contradiction | exact H].
  - intros k. unfold Object_contains. rewrite dict_contains_keys.
    rewrite (set_calls_key_set calls [] k). split; [|auto].
    intros [H|H]; [apply elem_of_nil in H; contradiction | exact H].
Qed.

(** X6. On an object that holds each key once, [items()] pairs each key
    with the node the key reads: [(k, n)] is an item exactly when [o[k]]
    returns [n]; and [items()] is [keys()] zipped with [values_iter()]. *)
Theorem Object_items_lookup
    (o : list (string * Node)) (k : string) (n : Node) :
  NoDup (Object_keys o) ->
  ((k, n) ∈ Object_items o <-> Object_getitem o k = Ok n) /\
  Object_items o = zip (Object_keys o) (Object_values_iter o).
Proof.
  intros Hwf. unfold Object_items, Object_getitem, Object_keys,
    Object_values_iter.
  split.
  - split.
    + intros H. rewrite (dict_elem_of_get o k n Hwf H). reflexivity.
    + destruct (dict_get o k) as [n'|] eqn:E; [|discriminate].
      intros [= ->]. apply dict_get_elem_of. exact E.
  - symmetry. apply zip_fst_snd.
Qed.

Lemma Object_items_lookup_witness :
  let o := [("a", Node_new (PyValue (Int 1))); ("b", Node_new (PyValue Null))] in
  (("b", Node_new (PyValue Null)) ∈ Object_items o <->
     Object_getitem o "b" = Ok (Node_new (PyValue Null))) /\
  Object_items o = zip (Object_keys o) (Object_values_iter o).
Proof.
  intros o. apply (Object_items_lookup o "b" (Node_new (PyValue Null))).
  apply (bool_decide_unpack _). vm_compute. exact I.
Defined.

(** ** Array: append, write and read back *)

Lemma append_calls_app (a : list Node) (vs : list pyobj) :
  append_calls a vs = a ++ (node_of <$> vs).
Proof.
  revert a. induction vs as [|v vs IH]; intros a; csimpl.
  - rewrite app_nil_r. reflexivity.
  - change (append_calls a (v :: vs)) with (append_calls (Array_append a v) vs).
    rewrite IH. unfold Array_append, list_append.
    rewrite <- app_assoc. reflexivity.
Qed.

(** X7. [append] makes the array one longer and puts the written node
    last: index [len] of the old array and index [-1] both read it, and
    iteration yields the old nodes and then the new one. *)
Theorem Array_append_last (a : list Node) (v : pyobj) :
  Array_len (Array_append a v) = Array_len a + 1 /\
  Array_getitem (Array_append a v) (Array_len a) = Ok (node_of v) /\
  Array_getitem (Array_append a v) (-1) = Ok (node_of v) /\
  Array_iter (Array_append a v) = Array_iter a ++ [node_of v].
Proof.
  unfold Array_len, Array_append, Array_getitem, Array_iter.
  split; [|split; [|split]].
  - unfold list_append. rewrite length_app. simpl. lia.
  - apply list_getitem_append_last.
  - unfold list_getitem, list_append.
    rewrite list_index_neg by (rewrite length_app; simpl; lia).
    rewrite length_app. simpl.
    replace (Z.to_nat (-1 + Z.of_nat (length a + 1))) with (length a) by lia.
    rewrite lookup_app_r by lia. rewrite Nat.sub_diag. reflexivity.
  - reflexivity.
Qed.

(** X8. [set] is served at exactly the indices [get] is served at; a
    served [set] keeps the length, and [get] at the same index then reads
    the written node. *)
Theorem Array_set_then_get (a : list Node) (i : Z) (v : pyobj) :
  is_ok (Array_setitem a i v) = is_ok (Array_getitem a i) /\
  (forall a', Array_setitem a i v = Ok a' ->
     Array_len a' = Array_len a /\ Array_getitem a' i = Ok (node_of v)).
Proof.
  unfold Array_setitem, Array_getitem, Array_len. split.
  - unfold list_setitem, list_getitem.
    destruct (list_index (length a) i) as [p|] eqn:E; [|reflexivity].
    destruct (lookup_lt_is_Some_2 a p (list_index_lt _ _ _ E)) as [x ->].
    reflexivity.
  - intros a' H. split.
    + f_equal. eapply list_setitem_length; eassumption.
    + eapply list_get_set_same; eassumption.
Qed.

(** X9. A run of [append]s puts the written nodes after the old ones, in
    the order of the calls; from the empty array, [n] calls give an array
    of length [n] whose slot [j] holds the node of the [j]-th call. *)
Theorem Array_append_calls (a : list Node) (vs : list pyobj) :
  Array_iter (append_calls a vs) = Array_iter a ++ (node_of <$> vs) /\
  Array_len (append_calls [] vs) = Z.of_nat (length vs) /\
  (forall (j : nat) (v : pyobj), vs !! j = Some v ->
     Array_getitem (append_calls [] vs) (Z.of_nat j) = Ok (node_of v)).
Proof.
  unfold Array_iter, Array_len. rewrite !append_calls_app. simpl.
  split; [reflexivity|]. split.
  - rewrite length_fmap. reflexivity.
  - intros j v Hj. unfold Array_getitem, list_getitem.
    pose proof (lookup_lt_Some _ _ _ Hj) as Hlt.
    rewrite list_index_nonneg by (rewrite length_fmap; lia).
    rewrite Nat2Z.id, list_lookup_fmap, Hj. reflexivity.
Qed.

(** X10. Two served writes at one index leave what the second alone
    leaves. *)
Theorem Array_set_twice (a a1 : list Node) (i : Z) (v1 v2 : pyobj) :
  Array_setitem a i v1 = Ok a1 ->
  Array_setitem a1 i v2 = Array_setitem a i v2.
Proof.
  unfold Array_setitem, list_setitem.
  destruct (list_index (length a) i) as [p|] eqn:E; [|discriminate].
  intros [= <-]. rewrite length_insert, E.
  rewrite list_insert_insert_eq. reflexivity.
Qed.

Lemma Array_set_twice_witness :
  Array_setitem [Node_new PyNone; Node_new (PyInt 7)] (-1) (NotNode (PyInt 2)) =
  Array_setitem [Node_new PyNone; Node_new (PyValue Null)] (-1) (NotNode (PyInt 2)).
Proof.
  apply (Array_set_twice [Node_new PyNone; Node_new (PyValue Null)]
           [Node_new PyNone; Node_new (PyInt 7)] (-1) (NotNode (PyInt 7))
           (NotNode (PyInt 2))).
  reflexivity.
Defined.

(** ** Document: integer keys, membership, runs of string writes *)

Lemma Document_set_calls_object
    (calls : list (string * pyobj)) (p : list Directive) (t : list Tag)
    (a : list Annotation) (o : list (string * Node)) (rest : list Node) :
  Document_set_calls (mkDocument p (mkNode t a (PyValue (Object o)) :: rest)) calls =
  Ok (mkDocument p (mkNode t a (PyValue (Object (set_calls o calls))) :: rest)).
Proof.
  revert o. induction calls as [|[k v] calls IH]; intros o; [reflexivity|].
  simpl. rewrite IH. reflexivity.
Qed.

(** X11. An integer key on a document is an index into [values], with the
    bounds of a list: outside [[-len, len)] the read and the write raise
    [IndexError], so a write never extends the document; a served write
    keeps the prolog and the number of values, and the same key then reads
    the written node. *)
Theorem Document_int_index (d : Document) (i : Z) (v : pyobj) :
  (i < - Z.of_nat (length (values d)) \/ Z.of_nat (length (values d)) <= i ->
     is_IndexError (Document_getitem d (KeyInt i)) = true /\
     is_IndexError (Document_setitem d (KeyInt i) v) = true) /\
  is_ok (Document_setitem d (KeyInt i) v) = is_ok (Document_getitem d (KeyInt i)) /\
  (forall d', Document_setitem d (KeyInt i) v = Ok d' ->
     prolog d' = prolog d /\
     length (values d') = length (values d) /\
     Document_getitem d' (KeyInt i) = Ok (node_of v)).
Proof.
  unfold Document_getitem, Document_setitem. split; [|split].
  - intros H. unfold list_getitem, list_setitem.
    rewrite (list_index_out _ _ H). split; reflexivity.
  - unfold list_setitem, list_getitem.
    destruct (list_index (length (values d)) i) as [p|] eqn:E; [|reflexivity].
    destruct (lookup_lt_is_Some_2 (values d) p (list_index_lt _ _ _ E)) as [x ->].
    reflexivity.
  - intros d'.
    destruct (list_setitem (values d) i (node_of v)) as [vs|e] eqn:E; [|discriminate].
    intros [= <-]. simpl. split; [reflexivity|]. split.
    + eapply list_setitem_length; eassumption.
    + eapply list_get_set_same; eassumption.
Qed.

Lemma Document_int_index_witness :
  is_IndexError (Document_getitem Document_new (KeyInt 0)) = true /\
  is_IndexError (Document_setitem Document_new (KeyInt 0) (NotNode (PyInt 1))) = true.
Proof.
  apply (proj1 (Document_int_index Document_new 0 (NotNode (PyInt 1)))).
  right. vm_compute. discriminate.
Defined.

(** X12. [k in document] tells whether [document[k]] returns: the test is
    true exactly when the read of the string key is served. *)
Theorem Document_contains_getitem (d : Document) (k : string) :
  Document_contains d k = is_ok (Document_getitem d (KeyStr k)).
Proof.
  unfold Document_contains, Document_getitem, Object_contains, Object_getitem,
    dict_contains.
  destruct (values d) as [|[t a p] rest]; [reflexivity|].
  destruct p as [| | | | |[]| |]; try reflexivity.
  destruct (dict_get value k); reflexivity.
Qed.

(** X13. A served write under a string key [k] keeps the prolog and every
    top-level value after the first, and changes no other key: membership
    of every other key is as before, and on a document that had a first
    value that node keeps its tags and annotations and every other key
    reads what it read before. *)
Theorem Document_setitem_str_frame
    (d d' : Document) (k : string) (v : pyobj) :
  Document_setitem d (KeyStr k) v = Ok d' ->
  prolog d' = prolog d /\
  tail (values d') = tail (values d) /\
  (forall k', k' <> k -> Document_contains d' k' = Document_contains d k') /\
  (forall n0 rest, values d = n0 :: rest ->
     exists n0', values d' = n0' :: rest /\
       Node_tags n0' = Node_tags n0 /\
       Node_annotations n0' = Node_annotations n0 /\
       forall k', k' <> k ->
         Document_getitem d' (KeyStr k') = Document_getitem d (KeyStr k')).
Proof.
  unfold Document_setitem.
  destruct d as [p vs]. simpl.
  destruct vs as [|[t a pl] rest]; simpl.
  - intros [= <-]. simpl. split; [reflexivity|]. split; [reflexivity|]. split.
    + intros k' Hne. unfold Document_contains, Object_contains, Object_setitem,
        dict_contains. simpl. rewrite decide_False by congruence. reflexivity.
    + intros n0 rest0 H. discriminate H.
  - destruct pl as [| | | | |[]| |]; try discriminate.
    intros [= <-]. simpl. split; [reflexivity|]. split; [reflexivity|].
    assert (Hget : forall k', k' <> k ->
              dict_get (Object_setitem value k v) k' = dict_get value k').
    { intros k' Hne. apply dict_get_set_other. exact Hne. }
    split.
    + intros k' Hne. unfold Document_contains, Object_contains, dict_contains.
      simpl. rewrite Hget by assumption. reflexivity.
    + intros n0 rest0 [= <- <-]. eexists. split; [reflexivity|].
      split; [reflexivity|]. split; [reflexivity|].
      intros k' Hne. unfold Document_getitem, Object_getitem. simpl.
      rewrite Hget by assumption. reflexivity.
Qed.

Lemma Document_setitem_str_frame_witness :
  let n0 := mkNode [mkTag "cfg"] [] (PyValue (Object [("a", Node_new (PyInt 1))])) in
  let d := mkDocument [mkDirective "schema" (String "s")] [n0; Node_new PyNone] in
  let d' := mkDocument [mkDirective "schema" (String "s")]
              [mkNode [mkTag "cfg"] []
                 (PyValue (Object [("a", Node_new (PyInt 1)); ("b", Node_new (PyInt 2))]));
               Node_new PyNone] in
  prolog d' = prolog d /\
  tail (values d') = tail (values d) /\
  (forall k', k' <> "b" -> Document_contains d' k' = Document_contains d k') /\
  (forall n0 rest, values d = n0 :: rest ->
     exists n0', values d' = n0' :: rest /\
       Node_tags n0' = Node_tags n0 /\
       Node_annotations n0' = Node_annotations n0 /\
       forall k', k' <> "b" ->
         Document_getitem d' (KeyStr k') = Document_getitem d (KeyStr k')).
Proof.
  intros n0 d d'.
  apply (Document_setitem_str_frame d d' "b" (NotNode (PyInt 2))).
  reflexivity.
Defined.

(** X14. Starting from [Document.new()], a run of writes under string
    keys never raises and leaves one top-level value: a node without tags
    or annotations around the object the same writes build from the empty
    object. *)
Theorem Document_set_calls_new (calls : list (string * pyobj)) :
  Document_set_calls Document_new calls =
  Ok (match calls with
      | [] => Document_new
      | _ :: _ =>
          mkDocument [] [mkNode [] [] (PyValue (Object (set_calls [] calls)))]
      end).
Proof.
  destruct calls as [|[k v] calls]; [reflexivity|].
  simpl. unfold Document_setitem. simpl.
  rewrite Document_set_calls_object. reflexivity.
Qed.

(** X15. A write under a string key is served exactly on a document that
    has no value or whose first value is an [Object]; on such a document
    every run of writes under string keys is served to its end. *)
Theorem Document_str_writes_served (d : Document) (k : string) (v : pyobj) :
  (is_ok (Document_setitem d (KeyStr k) v) = true <->
   values d = [] \/ is_Some (first_object d)) /\
  (values d = [] \/ is_Some (first_object d) ->
   forall calls, is_ok (Document_set_calls d calls) = true).
Proof.
  assert (Hiff : forall k v, is_ok (Document_setitem d (KeyStr k) v) = true <->
                 values d = [] \/ is_Some (first_object d)).
  { clear k v. intros k v. unfold Document_setitem, first_object.
    destruct (values d) as [|[t a p] rest]; simpl.
    - split; [left; reflexivity | reflexivity].
    - destruct p as [| | | | |[]| |]; simpl;
        try (split; [discriminate | intros [H|[? H]]; discriminate H]).
      split; [right; eexists; reflexivity | reflexivity]. }
  split; [apply Hiff|].
  intros H calls. destruct calls as [|[k0 v0] calls]; [reflexivity|].
  destruct d as [p vs]. unfold first_object in H. simpl in *.
  unfold Document_setitem. simpl.
  destruct vs as [|[t a pl] rest]; simpl.
  - rewrite Document_set_calls_object. reflexivity.
  - destruct H as [H|[o H]]; [discriminate|].
    destruct pl as [| | | | |[]| |]; try discriminate.
    rewrite Document_set_calls_object. reflexivity.
Qed.

Lemma Document_str_writes_served_witness :
  is_ok (Document_set_calls
           (mkDocument [] [Node_new (PyValue (Object [])); Node_new PyNone])
           [("a", NotNode (PyInt 1)); ("b", NotNode PyNone);
            ("a", IsNode (Node_new (PyValue Null)))]) = true.
Proof.
  refine (proj2 (Document_str_writes_served
                   (mkDocument [] [Node_new (PyValue (Object [])); Node_new PyNone])
                   "a" (NotNode PyNone)) _
            [("a", NotNode (PyInt 1)); ("b", NotNode PyNone);
             ("a", IsNode (Node_new (PyValue Null)))]).
  right. eexists. reflexivity.
Defined.

(** X16. A served write [document[0] = v] of anything that is not, or
    does not hold, an [Object] shuts the string keys: afterwards every
    string read raises [KeyError], every string write raises [TypeError]
    and every membership test is false. *)
Theorem Document_int_write_shuts_str
    (d d' : Document) (v : pyobj) (k : string) (w : pyobj) :
  Document_setitem d (KeyInt 0) v = Ok d' ->
  is_Object (Node_value (node_of v)) = false ->
  is_KeyError (Document_getitem d' (KeyStr k)) = true /\
  is_TypeError (Document_setitem d' (KeyStr k) w) = true /\
  Document_contains d' k = false.
Proof.
  unfold Document_setitem at 1. unfold list_setitem.
  destruct (list_index (length (values d)) 0) as [p|] eqn:E; [|discriminate].
  intros [= <-] Hv.
  assert (Hp : p = 0%nat).
  { destruct (Z.lt_ge_cases 0 (Z.of_nat (length (values d)))).
    - rewrite list_index_nonneg in E by lia. injection E as <-. reflexivity.
    - rewrite list_index_out in E by lia. discriminate. }
  subst p. pose proof (list_index_lt _ _ _ E) as Hlt.
  destruct (values d) as [|n0 rest]; [simpl in Hlt; lia|].
  unfold Document_getitem, Document_setitem, Document_contains. simpl.
  destruct (node_of v) as [t a pl]. simpl in Hv.
  destruct pl as [| | | | |[]| |]; try discriminate; repeat split.
Qed.

Lemma Document_int_write_shuts_str_witness :
  let d' := mkDocument [] [Node_new (PyInt 5)] in
  is_KeyError (Document_getitem d' (KeyStr "a")) = true /\
  is_TypeError (Document_setitem d' (KeyStr "a") (NotNode (PyInt 1))) = true /\
  Document_contains d' "a" = false.
Proof.
  intros d'.
  apply (Document_int_write_shuts_str
           (mkDocument [] [Node_new (PyValue (Object [("a", Node_new PyNone)]))])
           d' (NotNode (PyInt 5)) "a" (NotNode (PyInt 1))); reflexivity.
Defined.

(** ** Node: indexing, membership, length and iteration *)

Lemma list_getitem_ok {A} (l : list A) (i : Z) :
  is_ok (list_getitem l i) = true <->
  - Z.of_nat (length l) <= i < Z.of_nat (length l).
Proof.
  split.
  - destruct (Z.lt_ge_cases i (- Z.of_nat (length l))) as [H|H];
      [rewrite list_getitem_out by (apply list_index_out; lia); discriminate|].
    destruct (Z.lt_ge_cases i (Z.of_nat (length l))) as [H'|H'];
      [lia | rewrite list_getitem_out by (apply list_index_out; lia); discriminate].
  - intros H.
    assert (Hs : exists p, list_index (length l) i = Some p).
    { destruct (Z.lt_ge_cases i 0).
      - eexists. apply list_index_neg. lia.
      - eexists. apply list_index_nonneg. lia. }
    destruct Hs as [p Hp].
    destruct (list_getitem_slot l i p Hp) as (x & _ & ->). reflexivity.
Qed.

Lemma list_getitem_not_ok {A} (l : list A) (i : Z) :
  is_ok (list_getitem l i) = false -> is_IndexError (list_getitem l i) = true.
Proof.
  unfold list_getitem. destruct (list_index (length l) i) as [p|]; [|reflexivity].
  destruct (l !! p); [discriminate | reflexivity].
Qed.

(** Case analysis on the value of a node. *)
Ltac node_cases self :=
  destruct self as [?t ?a [| | | | |[]| |]]; simpl.

(** X17. [node[key]] on an [Object] node, for a string key, is served
    exactly when the object has the key and raises [KeyError(key)] when
    not; on an [Array] node, for an integer key, it is served exactly when
    the index lies in [[-len, len)] and raises [IndexError] when not, and
    for a string key it raises [TypeError]; on [None], a bare [bool],
    [int] or [float] and an instance of a scalar [Value] class, every key
    raises [TypeError] naming the value's type. *)
Theorem Node_getitem_served (self : Node) (k : string) (i : Z) :
  (forall d, Node_value self = PyValue (Object d) ->
     exists r, Node_getitem self (inl k) = Some r /\
       (is_ok r = true <-> Object_contains d k = true) /\
       (forall n, Object_getitem d k = Ok n -> r = Ok (IsNode n)) /\
       (is_ok r = false -> r = Raise (KeyError k))) /\
  (forall l, Node_value self = PyValue (Array l) ->
     Node_getitem self (inl k) =
       Some (Raise (TypeError "list indices must be integers or slices, not str")) /\
     exists r, Node_getitem self (inr i) = Some r /\
       (is_ok r = true <-> - Array_len l <= i < Array_len l) /\
       (forall n, Array_getitem l i = Ok n -> r = Ok (IsNode n)) /\
       (is_ok r = false -> is_IndexError r = true)) /\
  (is_scalar (Node_value self) = true ->
   forall key, Node_getitem self key =
     Some (Raise (TypeError ("'" +:+ type_name (Node_value self) +:+
                             "' object is not subscriptable")))).
Proof.
  split; [|split].
  - intros d Hd. destruct self as [t a p]. simpl in Hd. subst p.
    unfold Node_getitem, Object_getitem, Object_contains, dict_contains. simpl.
    destruct (dict_get d k) as [n|].
    + exists (Ok (IsNode n)). split; [reflexivity|]. split; [split; reflexivity|].
      split; [intros n' [= ->]; reflexivity | discriminate].
    + exists (Raise (KeyError k)). split; [reflexivity|].
      split; [split; discriminate|]. split; [discriminate | reflexivity].
  - intros l Hl. destruct self as [t a p]. simpl in Hl. subst p.
    split; [reflexivity|].
    unfold Node_getitem, Array_getitem, Array_len. simpl.
    pose proof (list_getitem_ok l i) as Hok.
    pose proof (list_getitem_not_ok l i) as Hno.
    destruct (list_getitem l i) as [n|e].
    + exists (Ok (IsNode n)). split; [reflexivity|].
      split; [split; [intros _; apply Hok; reflexivity | reflexivity]|].
      split; [intros n' [= ->]; reflexivity | discriminate].
    + exists (Raise e). split; [reflexivity|].
      split; [split; [discriminate | intros H; apply Hok in H; discriminate H]|].
      split; [discriminate | intros _; apply Hno; reflexivity].
  - node_cases self; intros H key; try discriminate H; try reflexivity;
      destruct key; reflexivity.
Qed.

(** X18. [key in node] on an [Array] node is false for every string and
    every integer, whatever the array holds, since the key is compared
    with the nodes; on an [Object] node, for a string key, it is true
    exactly when [node[key]] is served; on [None], a bare [bool], [int] or
    [float] and an instance of a scalar [Value] class it raises
    [TypeError]. *)
Theorem Node_contains_cases (self : Node) (key : string + Z) (k : string) :
  (is_Array (Node_value self) = true -> Node_contains self key = Some (Ok false)) /\
  (is_Object (Node_value self) = true ->
     exists r, Node_getitem self (inl k) = Some r /\
               Node_contains self (inl k) = Some (Ok (is_ok r))) /\
  (is_scalar (Node_value self) = true ->
     exists msg, Node_contains self key = Some (Raise (TypeError msg))).
Proof.
  split; [|split].
  - node_cases self; try discriminate. intros _.
    unfold Node_contains, Array_iter. simpl. do 2 f_equal.
    induction value as [|n l IH]; [reflexivity | exact IH].
  - node_cases self; try discriminate. intros _.
    unfold Node_contains, Node_getitem, Object_contains, Object_getitem,
      dict_contains. simpl.
    destruct (dict_get value k); eexists; split; reflexivity.
  - node_cases self; intros H; try discriminate H;
      destruct key; eexists; reflexivity.
Qed.

Lemma Node_contains_cases_witness :
  Node_contains
    (Node_new (PyValue (Array [Node_new (PyValue (Int 1)); Node_new (PyInt 1)])))
    (inr 1) = Some (Ok false).
Proof.
  apply (proj1 (Node_contains_cases
                  (Node_new (PyValue (Array [Node_new (PyValue (Int 1));
                                             Node_new (PyInt 1)])))
                  (inr 1) "k")).
  reflexivity.
Defined.

(** X19. On an [Object] or [Array] node [len(node)] and [iter(node)] are
    both served, and wherever both are served [len] is the number of
    things the iteration yields; on [None], a bare [bool], [int] or
    [float] and an instance of a scalar [Value] class both raise
    [TypeError]. *)
Theorem Node_len_iter (self : Node) :
  (forall n xs, Node_len self = Some (Ok n) -> Node_iter self = Some (Ok xs) ->
     n = Z.of_nat (length xs)) /\
  (is_Object (Node_value self) || is_Array (Node_value self) = true ->
     exists n xs, Node_len self = Some (Ok n) /\ Node_iter self = Some (Ok xs)) /\
  (is_scalar (Node_value self) = true ->
     exists m1 m2, Node_len self = Some (Raise (TypeError m1)) /\
                   Node_iter self = Some (Raise (TypeError m2))).
Proof.
  unfold Node_len, Node_iter, Object_len, Array_len, Object_iter, Array_iter.
  node_cases self; repeat split; try discriminate;
    try (intros ? ? [= <-] [= <-]; rewrite ?length_fmap; reflexivity);
    try (intros _; do 2 eexists; split; reflexivity).
Qed.

Lemma Node_len_iter_witness :
  exists n xs,
    Node_len (Node_new (PyValue (Array [Node_new PyNone]))) = Some (Ok n) /\
    Node_iter (Node_new (PyValue (Array [Node_new PyNone]))) = Some (Ok xs).
Proof.
  apply (proj1 (proj2 (Node_len_iter (Node_new (PyValue (Array [Node_new PyNone])))))).
  reflexivity.
Defined.



(** X21. A served write [node[key] = v] keeps the tags and annotations of
    the node and the class of its value, and [node[key]] then reads what
    was stored: on an [Object] node under a string key and on an [Array]
    node under an integer key, the written node. *)
Theorem Node_setitem_then_getitem
    (self self' : Node) (key : string + Z) (v : pyobj) :
  Node_setitem self key v = Some (Ok self') ->
  Node_tags self' = Node_tags self /\
  Node_annotations self' = Node_annotations self /\
  type_name (Node_value self') = type_name (Node_value self) /\
  Node_getitem self' key = Some (Ok (stored_as (Node_value self) v)) /\
  (is_Object (Node_value self) || is_Array (Node_value self) = true ->
   Node_getitem self' key = Some (Ok (IsNode (node_of v)))).
Proof.
  unfold Node_setitem. node_cases self; destruct key as [k|i]; try discriminate.
  - destruct (Array_setitem value i v) as [l'|e] eqn:E; [|discriminate].
    intros [= <-]. simpl.
    destruct (Array_set_then_get value i v) as [_ H].
    destruct (H l' E) as [_ Hget].
    unfold Node_getitem, stored_as. simpl. rewrite Hget. repeat split.
  - intros [= <-]. simpl.
    unfold Node_getitem, stored_as, Object_getitem, Object_setitem. simpl.
    rewrite dict_get_set_same. repeat split.
  - destruct (list_setitem items i v) as [l'|e] eqn:E; [|discriminate].
    intros [= <-]. simpl.
    unfold Node_getitem, stored_as. simpl.
    rewrite (list_get_set_same items i v l' E). repeat split. discriminate.
  - intros [= <-]. simpl.
    unfold Node_getitem, stored_as. simpl.
    rewrite dict_get_set_same. repeat split. discriminate.
Qed.

Lemma Node_setitem_then_getitem_witness :
  let self := mkNode [mkTag "cfg"] [] (PyValue (Object [("a", Node_new PyNone)])) in
  let self' := mkNode [mkTag "cfg"] []
                 (PyValue (Object [("a", Node_new PyNone); ("b", Node_new (PyInt 2))])) in
  Node_tags self' = Node_tags self /\
  Node_annotations self' = Node_annotations self /\
  type_name (Node_value self') = type_name (Node_value self) /\
  Node_getitem self' (inl "b") = Some (Ok (IsNode (Node_new (PyInt 2)))) /\
  (is_Object (Node_value self) || is_Array (Node_value self) = true ->
   Node_getitem self' (inl "b") = Some (Ok (IsNode (Node_new (PyInt 2))))).
Proof.
  intros self self'.
  apply (Node_setitem_then_getitem self self' (inl "b") (NotNode (PyInt 2))).
  reflexivity.
Defined.



(** X23. What iteration over a node yields can be read back: over an
    [Object] it yields keys, each of which the node has and serves; over
    an [Array] the [j]-th thing yielded is what [node[j]] reads. *)
Theorem Node_iter_readable (self : Node) (xs : list pyobj) :
  Node_iter self = Some (Ok xs) ->
  (is_Object (Node_value self) = true ->
   forall x, x ∈ xs ->
     exists k, x = NotNode (PyStr k) /\
       (exists r, Node_getitem self (inl k) = Some (Ok r)) /\
       Node_contains self (inl k) = Some (Ok true)) /\
  (is_Array (Node_value self) = true ->
   forall (j : nat) x, xs !! j = Some x ->
     Node_getitem self (inr (Z.of_nat j)) = Some (Ok x)).
Proof.
  unfold Node_iter. node_cases self; try discriminate; intros [= <-]; split;
    try discriminate; intros _.
  - intros j x Hj. unfold Array_iter in Hj.
    rewrite list_lookup_fmap in Hj.
    destruct (value !! j) as [n|] eqn:E; [|discriminate].
    injection Hj as <-. unfold Node_getitem, Array_getitem, list_getitem. simpl.
    rewrite list_index_nonneg by (apply lookup_lt_Some in E; lia).
    rewrite Nat2Z.id, E. reflexivity.
  - intros x Hx. unfold Object_iter in Hx.
    apply list_elem_of_fmap in Hx as (k & -> & Hk).
    exists k. split; [reflexivity|].
    apply dict_contains_keys in Hk. unfold dict_contains in Hk.
    unfold Node_getitem, Node_contains, Object_getitem, Object_contains,
      dict_contains. simpl.
    destruct (dict_get value k); [split; eauto | discriminate].
Qed.

Lemma Node_iter_readable_witness :
  let self := Node_new (PyValue (Object [("a", Node_new (PyInt 1));
                                         ("b", Node_new PyNone)])) in
  (is_Object (Node_value self) = true ->
   forall x, x ∈ [NotNode (PyStr "a"); NotNode (PyStr "b")] ->
     exists k, x = NotNode (PyStr k) /\
       (exists r, Node_getitem self (inl k) = Some (Ok r)) /\
       Node_contains self (inl k) = Some (Ok true)) /\
  (is_Array (Node_value self) = true ->
   forall (j : nat) x, [NotNode (PyStr "a"); NotNode (PyStr "b")] !! j = Some x ->
     Node_getitem self (inr (Z.of_nat j)) = Some (Ok x)).
Proof.
  intros self.
  apply (Node_iter_readable self [NotNode (PyStr "a"); NotNode (PyStr "b")]).
  reflexivity.
Defined.

(** ** Renderings *)

Lemma str_length_app (s t : string) :
  String.length (s +:+ t) = (String.length s + String.length t)%nat.
Proof. induction s as [|c s IH]; simpl; [reflexivity | rewrite IH; reflexivity]. Qed.

Lemma str_app_inv_tail (s1 s2 t : string) : s1 +:+ t = s2 +:+ t -> s1 = s2.
Proof.
  revert s2. induction s1 as [|c s1 IH]; intros [|c2 s2] H; simpl in *.
  - reflexivity.
  - exfalso. apply (f_equal String.length) in H.
    rewrite !str_length_app in H. simpl in H. rewrite ?str_length_app in H. lia.
  - exfalso. apply (f_equal String.length) in H.
    rewrite !str_length_app in H. simpl in H. rewrite ?str_length_app in H. lia.
  - injection H as -> H. f_equal. apply IH, H.
Qed.

Lemma count_rendering_inj (pre post : string) (n m : nat) :
  pre +:+ str_of_len n +:+ post = pre +:+ str_of_len m +:+ post -> n = m.
Proof.
  intros H. apply String.app_inj, str_app_inv_tail in H.
  apply (inj pretty) in H. exact H.
Qed.

(** X24. The rendering of an [Array], an [Object] or a [Bytes] shows the
    number of elements and nothing else: two of a class render alike
    exactly when they have the same length.  The rendering of a [Bool]
    tells the payload: [true] or [false], in lower case. *)
Theorem renderings_tell
    (a1 a2 : list Node) (o1 o2 : list (string * Node)) (b1 b2 : list byte)
    (t1 t2 : bool) :
  (Array_str a1 = Array_str a2 <-> length a1 = length a2) /\
  (Object_str o1 = Object_str o2 <-> length o1 = length o2) /\
  (Bytes_str b1 = Bytes_str b2 <-> length b1 = length b2) /\
  (Bool_str t1 = Bool_str t2 <-> t1 = t2) /\
  Bool_str t1 = (if t1 then "true" else "false").
Proof.
  unfold Array_str, Object_str, Bytes_str.
  repeat split; try (intros ->; reflexivity).
  - apply count_rendering_inj.
  - apply count_rendering_inj.
  - apply count_rendering_inj.
  - destruct t1, t2; (reflexivity || (vm_compute; discriminate)).
  - destruct t1; reflexivity.
Qed.
